(** * The prospect-table engine ([csv_ops.py]) as a shallow embedding

    The six operations of [linkedin_prospecting_csv/csv_ops.py] are Python
    coroutines over pandas data frames.  They are embedded here as total
    functions: a data frame is an ordered schema plus an ordered list of
    records, a raised exception is the [Raise] branch of [result], and the
    files on disk are an explicit [filesystem] that the mutating operations
    return together with their answer.

    What pandas contributes is modelled at the level the code relies on:
    - a cell is missing ([NaN]), Python's [None] ([PyNone]), a text ([Str])
      or a number ([Int]); numbers are integers, and the floats and truth
      values of pandas are not represented, so what is stated about the
      string form of a cell is stated for columns held as text;
    - [astype(str)] renders a missing value as the text [nan] (the behaviour
      of pandas before 3.0) and [None] as the text [None];
    - a CSV file is a header and a grid of text fields; [read_csv] turns the
      usual NA markers into [NaN] and reads a column whose remaining fields
      are all integer literals as numbers; quoting and encodings are left to
      the codec;
    - [str.contains] with [regex=True] is interpreted for the fragment of
      Python's [re] syntax made of ordinary characters, [.], [|] and
      parentheses; any other metacharacter makes the model stop with
      [NotModelled];
    - date parsing and formatting ([pd.to_datetime], [strftime]) are
      parameters of the development. *)

From Stdlib Require Import String Ascii List ZArith Lia Bool Arith.
From Stdlib Require Import DecimalString Sorted Permutation.
Import ListNotations.
Open Scope string_scope.
Open Scope list_scope.

(** ** Python string methods used by the code *)

Module Py.

(** [str.isspace] on the ASCII range: TAB..CR, FS..US and the blank. *)
Definition isspace (c : ascii) : bool :=
  let n := nat_of_ascii c in
  ((9 <=? n) && (n <=? 13) || (28 <=? n) && (n <=? 32))%nat.

Fixpoint lstrip (s : string) : string :=
  match s with
  | EmptyString => EmptyString
  | String c s' => if isspace c then lstrip s' else s
  end.

Fixpoint rstrip (s : string) : string :=
  match s with
  | EmptyString => EmptyString
  | String c s' =>
      match rstrip s' with
      | EmptyString => if isspace c then EmptyString else String c EmptyString
      | t => String c t
      end
  end.

(** [s.strip()] *)
Definition strip (s : string) : string := rstrip (lstrip s).

Definition upper_char (c : ascii) : ascii :=
  let n := nat_of_ascii c in
  if ((97 <=? n) && (n <=? 122))%nat then ascii_of_nat (n - 32) else c.

Definition lower_char (c : ascii) : ascii :=
  let n := nat_of_ascii c in
  if ((65 <=? n) && (n <=? 90))%nat then ascii_of_nat (n + 32) else c.

Fixpoint upper (s : string) : string :=
  match s with
  | EmptyString => EmptyString
  | String c s' => String (upper_char c) (upper s')
  end.

(** [p in s]: [p] occurs in [s] as a contiguous run of characters. *)
Fixpoint contains (p s : string) : bool :=
  String.prefix p s ||
  match s with
  | EmptyString => false
  | String _ s' => contains p s'
  end.

(** [s.startswith(p)] *)
Definition startswith (p s : string) : bool := String.prefix p s.

(** [sep.join(l)] *)
Definition join (sep : string) (l : list string) : string :=
  String.concat sep l.

(** [str(z)] for an integer. *)
Definition str_int (z : Z) : string := NilZero.string_of_int (Z.to_int z).

(** An integer literal: an optional minus sign and at least one digit. *)
Definition int_literal (s : string) : option Z :=
  option_map Z.of_int (NilZero.int_of_string s).

(** Membership in a list of strings, as [x in l]. *)
Definition mem (x : string) (l : list string) : bool :=
  existsb (String.eqb x) l.

End Py.

(** ** Exceptions *)

Inductive exn : Type :=
| KeyError (key : string)      (* [df[c]] on a column that is not there *)
| AttributeError               (* [.str] on a column that holds no text *)
| ParserError                  (* [read_csv] on a file that is not a table *)
| ReError                      (* [re.compile] on a malformed pattern *)
| ValueError                   (* a bad argument, a date that does not parse *)
| NotModelled.                 (* a pattern outside the modelled fragment *)

Inductive result (A : Type) : Type :=
| Ok (a : A)
| Raise (e : exn).
Arguments Ok {A} a.
Arguments Raise {A} e.

Definition bind {A B : Type} (m : result A) (k : A -> result B) : result B :=
  match m with
  | Ok a => k a
  | Raise e => Raise e
  end.

Notation "'let*' x ':=' m 'in' k" := (bind m (fun x => k))
  (at level 10, x name, m at level 100, k at level 200).

(** ** Cells, records and data frames *)

Inductive cell : Type :=
| NaN               (* the missing value of pandas: a key that a record lacks,
                       an NA marker in a file *)
| PyNone            (* Python's [None]: a JSON null in a record *)
| Str (s : string)
| Int (z : Z).

Definition cell_eqb (a b : cell) : bool :=
  match a, b with
  | NaN, NaN => true
  | PyNone, PyNone => true
  | Str s, Str t => String.eqb s t
  | Int x, Int y => Z.eqb x y
  | _, _ => false
  end.

(** [pd.isna]: [None] counts as missing, like [NaN]. *)
Definition isna (a : cell) : bool :=
  match a with NaN | PyNone => true | _ => false end.

(** The element-wise conversion of [Series.astype(str)]: [str(value)]. *)
Definition str_of (a : cell) : string :=
  match a with
  | NaN => "nan"
  | PyNone => "None"
  | Str s => s
  | Int z => Py.str_int z
  end.

(** A record is a Python dict from column names to cells; a key that is
    absent reads as a missing value once the record sits in a frame. *)
Definition record : Type := list (string * cell).

Fixpoint get (r : record) (c : string) : cell :=
  match r with
  | [] => NaN
  | (k, v) :: r' => if String.eqb k c then v else get r' c
  end.

Definition set (r : record) (c : string) (v : cell) : record := (c, v) :: r.

Inductive dtype : Type := numeric | object | datetime.

Record DataFrame : Type := mkDF {
  schema : list (string * dtype);
  rows : list record
}.

Definition columns (df : DataFrame) : list string := map fst (schema df).

Definition len (df : DataFrame) : Z := Z.of_nat (length (rows df)).

Fixpoint dtype_of (sch : list (string * dtype)) (c : string) : dtype :=
  match sch with
  | [] => object
  | (k, d) :: sch' => if String.eqb k c then d else dtype_of sch' c
  end.

(** The dtype pandas infers for a column built from Python values: a text
    or a [None] that is kept makes it [object]. *)
Definition infer_dtype (col : list cell) : dtype :=
  match col with
  | [] => object
  | _ => if existsb (fun a => match a with
                              | Str _ | PyNone => true
                              | _ => false
                              end) col
         then object else numeric
  end.

(** [df[c]] *)
Definition getitem (df : DataFrame) (c : string) : result (list cell) :=
  if Py.mem c (columns df) then Ok (map (fun r => get r c) (rows df))
  else Raise (KeyError c).

Fixpoint set_dtype (sch : list (string * dtype)) (c : string) (d : dtype)
  : list (string * dtype) :=
  match sch with
  | [] => [(c, d)]
  | (k, d') :: sch' =>
      if String.eqb k c then (k, d) :: sch' else (k, d') :: set_dtype sch' c d
  end.

(** [df[c] = values]: the column is replaced in place, or added last. *)
Definition setitem (df : DataFrame) (c : string) (d : dtype) (vals : list cell)
  : DataFrame :=
  {| schema := set_dtype (schema df) c d;
     rows := map (fun rv => set (fst rv) c (snd rv)) (combine (rows df) vals) |}.

(** [df[mask]] *)
Fixpoint boolean_index (rs : list record) (mask : list bool) : list record :=
  match rs, mask with
  | r :: rs', b :: mask' =>
      if b then r :: boolean_index rs' mask' else boolean_index rs' mask'
  | _, _ => []
  end.

Definition select (df : DataFrame) (mask : list bool) : DataFrame :=
  {| schema := schema df; rows := boolean_index (rows df) mask |}.

(** Column names in order of first appearance. *)
Definition add_columns (acc : list (string * dtype)) (new : list (string * dtype))
  : list (string * dtype) :=
  fold_left (fun a kd => if Py.mem (fst kd) (map fst a) then a else a ++ [kd])
            new acc.

(** What becomes of the values of one column when pandas builds a frame
    from Python values: a [None] stays as it is next to a text, or when the
    column holds nothing but [None]; in any other column it becomes [NaN]. *)
Definition keeps_none (col : list cell) : bool :=
  existsb (fun a => match a with Str _ => true | _ => false end) col ||
  forallb (fun a => match a with PyNone => true | _ => false end) col.

Definition held (col : list cell) (a : cell) : cell :=
  match a with
  | PyNone => if keeps_none col then PyNone else NaN
  | _ => a
  end.

(** The records of a batch as the frame built from them holds them. *)
Definition framed (profiles : list record) : list record :=
  map (fun r =>
         map (fun kv => (fst kv,
                         held (map (fun r' => get r' (fst kv)) profiles) (snd kv)))
             r)
      profiles.

(** [pd.DataFrame(profiles)] for a list of dicts. *)
Definition DataFrame_of (profiles : list record) : DataFrame :=
  let keys := fold_left
                (fun a r => add_columns a (map (fun kv => (fst kv, object)) r))
                profiles [] in
  {| schema := map (fun kd => (fst kd,
                               infer_dtype (map (fun r => get r (fst kd))
                                                (framed profiles))))
                   keys;
     rows := framed profiles |}.

(** [pd.concat([a, b], ignore_index=True)] *)
Definition concat (a b : DataFrame) : DataFrame :=
  let rs := rows a ++ rows b in
  {| schema := map (fun kd => (fst kd, infer_dtype (map (fun r => get r (fst kd)) rs)))
                   (add_columns (schema a) (schema b));
     rows := rs |}.

(** [df.reindex(columns=cols)] *)
Definition reindex (cols : list string) (df : DataFrame) : DataFrame :=
  {| schema := map (fun c => (c, if Py.mem c (columns df)
                                 then dtype_of (schema df) c else numeric)) cols;
     rows := rows df |}.

(** [df.drop_duplicates(subset=[c], keep='first')]: a row survives when no
    earlier row carries the same value in [c]. *)
Fixpoint drop_dup_first (c : string) (seen : list cell) (rs : list record)
  : list record :=
  match rs with
  | [] => []
  | r :: rs' =>
      if existsb (cell_eqb (get r c)) seen then drop_dup_first c seen rs'
      else r :: drop_dup_first c (get r c :: seen) rs'
  end.

Definition drop_dup_last (c : string) (rs : list record) : list record :=
  rev (drop_dup_first c [] (rev rs)).

Definition drop_duplicates (df : DataFrame) (c : string) (keep : string)
  : result DataFrame :=
  if String.eqb keep "first" then
    Ok {| schema := schema df; rows := drop_dup_first c [] (rows df) |}
  else if String.eqb keep "last" then
    Ok {| schema := schema df; rows := drop_dup_last c (rows df) |}
  else Raise ValueError.

(** [df[c] = df[c].astype(str).str.strip()] *)
Definition normalized (a : cell) : cell := Str (Py.strip (str_of a)).

Definition normalize_column (df : DataFrame) (c : string) : DataFrame :=
  setitem df c object (map (fun r => normalized (get r c)) (rows df)).

(** ** Files and the CSV codec *)

(** A file is either a header with a grid of text fields, or bytes that the
    codec cannot read as a table. *)
Inductive file : Type :=
| Garbage
| Csv (header : list string) (body : list (list string)).

Definition filesystem : Type := string -> option file.

Definition write (fs : filesystem) (path : string) (f : file) : filesystem :=
  fun p => if String.eqb p path then Some f else fs p.

(** The texts that [read_csv] takes for a missing value by default. *)
Definition na_values : list string :=
  [""; "#N/A"; "#N/A N/A"; "#NA"; "-1.#IND"; "-1.#QNAN"; "-NaN"; "-nan";
   "1.#IND"; "1.#QNAN"; "<NA>"; "N/A"; "NA"; "NULL"; "NaN"; "None"; "n/a";
   "nan"; "null"].

Definition is_na_text (t : string) : bool := Py.mem t na_values.

Definition field (row : list string) (j : nat) : string := nth j row "".

(** A column with at least one row whose fields are all NA markers or
    integer literals is read as numbers; any other column holds text. *)
Definition numeric_texts (texts : list string) : bool :=
  match texts with
  | [] => false
  | _ => forallb (fun t => is_na_text t ||
                           match Py.int_literal t with Some _ => true | None => false end)
                 texts
  end.

Definition parse_field (num : bool) (t : string) : cell :=
  if is_na_text t then NaN
  else if num then
         match Py.int_literal t with Some z => Int z | None => NaN end
       else Str t.

Definition layout (header : list string) (body : list (list string))
  : list (string * (nat * bool)) :=
  let js := seq 0 (length header) in
  combine header
    (combine js (map (fun j => numeric_texts (map (fun row => field row j) body)) js)).

(** [pd.read_csv(path)] *)
Definition read_csv (f : file) : result DataFrame :=
  match f with
  | Garbage => Raise ParserError
  | Csv header body =>
      let lay := layout header body in
      Ok {| schema := map (fun l : string * (nat * bool) =>
                             (fst l, if snd (snd l) then numeric else object)) lay;
            rows := map (fun row =>
                           map (fun l : string * (nat * bool) =>
                                  (fst l,
                                   parse_field (snd (snd l))
                                               (field row (fst (snd l)))))
                               lay)
                        body |}
  end.

(** The text [to_csv] writes for a cell ([na_rep] is the empty string). *)
Definition to_text (a : cell) : string :=
  match a with
  | NaN | PyNone => ""
  | Str s => s
  | Int z => Py.str_int z
  end.

(** [df.to_csv(path, index=False)] *)
Definition to_csv (df : DataFrame) : file :=
  Csv (columns df)
      (map (fun r => map (fun c => to_text (get r c)) (columns df)) (rows df)).

(** ** Append with deduplication *)

Record append_report : Type := mkAppend {
  added : Z;
  skipped_duplicates : Z;
  total_profiles : Z
}.

Definition append_profiles_to_csv
  (fs : filesystem) (csv_path : string) (profiles : list record)
  (dedupe_column : string) : result append_report * filesystem :=
  let new_df := DataFrame_of profiles in
  let loaded :=
    match fs csv_path with
    | Some f =>
        let* existing_df := read_csv f in
        Ok (existing_df, columns existing_df, concat existing_df new_df)
    | None => Ok (mkDF [] [], columns new_df, new_df)
    end in
  match loaded with
  | Raise e => (Raise e, fs)
  | Ok (existing_df, cols, combined_df) =>
      let deduped :=
        if Py.mem dedupe_column (columns combined_df) then
          drop_duplicates (normalize_column combined_df dedupe_column)
                          dedupe_column "first"
        else Ok combined_df in
      match deduped with
      | Raise e => (Raise e, fs)
      | Ok combined_df =>
          let final_count := len combined_df in
          let added := (final_count - len existing_df)%Z in
          let skipped := (Z.of_nat (length profiles) - added)%Z in
          let combined_df := reindex cols combined_df in
          (Ok {| added := added;
                 skipped_duplicates := skipped;
                 total_profiles := final_count |},
           write fs csv_path (to_csv combined_df))
      end
  end.

(** ** Regular expressions: the fragment of [re] that is interpreted *)

Module Re.

Inductive regex : Type :=
| Eps
| Chr (c : ascii)
| Dot
| Cat (r1 r2 : regex)
| Alt (r1 r2 : regex).

(** The characters with a meaning of their own in a pattern. *)
Definition special (c : ascii) : bool :=
  Py.mem (String c "")
    ["."; "^"; "$"; "*"; "+"; "?"; "{"; "}"; "["; "]"; "\"; "|"; "("; ")"].

(** One level of nesting while parsing: the alternatives already closed
    by a bar, and the concatenation being read. *)
Record frame : Type := mkFrame {
  closed : option regex;
  current : regex
}.

Definition close (f : frame) : regex :=
  match closed f with
  | None => current f
  | Some a => Alt a (current f)
  end.

Definition push (f : frame) (r : regex) : frame :=
  {| closed := closed f; current := Cat (current f) r |}.

Fixpoint parse (s : string) (cur : frame) (stack : list frame) : result regex :=
  match s with
  | EmptyString =>
      match stack with
      | [] => Ok (close cur)
      | _ :: _ => Raise ReError
      end
  | String c s' =>
      if Ascii.eqb c "(" then parse s' (mkFrame None Eps) (cur :: stack)
      else if Ascii.eqb c ")" then
        match stack with
        | [] => Raise ReError
        | f :: stack' => parse s' (push f (close cur)) stack'
        end
      else if Ascii.eqb c "|" then
        parse s' {| closed := Some (close cur); current := Eps |} stack
      else if Ascii.eqb c "." then parse s' (push cur Dot) stack
      else if special c then Raise NotModelled
      else parse s' (push cur (Chr c)) stack
  end.

(** [re.compile(pattern)] *)
Definition compile (pattern : string) : result regex :=
  parse pattern (mkFrame None Eps) [].

Definition newline : ascii := "010"%char.

(** The suffixes left after [r] matches at the start of [s]. *)
Fixpoint residuals (ignorecase : bool) (r : regex) (s : string) : list string :=
  match r with
  | Eps => [s]
  | Chr c =>
      match s with
      | String d s' =>
          if (if ignorecase
              then Ascii.eqb (Py.lower_char c) (Py.lower_char d)
              else Ascii.eqb c d)
          then [s'] else []
      | EmptyString => []
      end
  | Dot =>
      match s with
      | String d s' => if Ascii.eqb d newline then [] else [s']
      | EmptyString => []
      end
  | Cat r1 r2 => flat_map (residuals ignorecase r2) (residuals ignorecase r1 s)
  | Alt r1 r2 => residuals ignorecase r1 s ++ residuals ignorecase r2 s
  end.

Definition matches_here (ignorecase : bool) (r : regex) (s : string) : bool :=
  match residuals ignorecase r s with
  | [] => false
  | _ :: _ => true
  end.

(** [r.search(s) is not None] *)
Fixpoint search (ignorecase : bool) (r : regex) (s : string) : bool :=
  matches_here ignorecase r s ||
  match s with
  | EmptyString => false
  | String _ s' => search ignorecase r s'
  end.

End Re.

(** ** Column operations of pandas *)

(** [df[c].str]: the accessor exists on text columns only. *)
Definition str_accessor (df : DataFrame) (c : string) : result (list cell) :=
  let* col := getitem df c in
  match dtype_of (schema df) c with
  | object => Ok col
  | _ => Raise AttributeError
  end.

(** [.str.contains(pattern, case=False, na=False)], a regular expression. *)
Definition str_contains_regex (pattern : string) (col : list cell)
  : result (list bool) :=
  let* r := Re.compile pattern in
  Ok (map (fun a => match a with
                    | Str s => Re.search true r s
                    | _ => false
                    end) col).

(** [.str.contains(term, case=case, na=False, regex=False)] *)
Definition str_contains_literal (term : string) (case : bool) (col : list cell)
  : list bool :=
  map (fun a => match a with
                | Str s => if case then Py.contains term s
                           else Py.contains (Py.upper term) (Py.upper s)
                | _ => false
                end) col.

(** [.str.startswith(prefix, na=False)] *)
Definition str_startswith (prefix : string) (col : list cell) : list bool :=
  map (fun a => match a with
                | Str s => Py.startswith prefix s
                | _ => false
                end) col.

(** [.astype(str)] *)
Definition astype_str (col : list cell) : list cell :=
  map (fun a => Str (str_of a)) col.

(** [pd.to_numeric(col, errors='coerce')] *)
Definition to_numeric (col : list cell) : list cell :=
  map (fun a => match a with
                | NaN | PyNone => NaN
                | Int z => Int z
                | Str s => match Py.int_literal s with
                           | Some z => Int z
                           | None => NaN
                           end
                end) col.

(** [col >= bound] and [col <= bound]; a missing value compares false. *)
Definition ge_scalar (bound : Z) (col : list cell) : list bool :=
  map (fun a => match a with Int z => (bound <=? z)%Z | _ => false end) col.

Definition le_scalar (bound : Z) (col : list cell) : list bool :=
  map (fun a => match a with Int z => (z <=? bound)%Z | _ => false end) col.

(** The order of [sort_values(ascending=False)]: larger numbers first,
    missing values last. *)
Definition score_before (a b : cell) : bool :=
  match a, b with
  | Int x, Int y => (y <=? x)%Z
  | Int _, _ => true
  | _, Int _ => false
  | _, _ => true
  end.

Fixpoint insert_row (by_ : string) (r : record) (l : list record) : list record :=
  match l with
  | [] => [r]
  | h :: t =>
      if score_before (get r by_) (get h by_) then r :: h :: t
      else h :: insert_row by_ r t
  end.

(** [df.sort_values(by=c, ascending=False)] *)
Definition sort_values (df : DataFrame) (by_ : string) : DataFrame :=
  {| schema := schema df;
     rows := fold_right (insert_row by_) [] (rows df) |}.

(** [df.head(n)]: the first [n] rows, or all but the last [-n] ones. *)
Definition head (df : DataFrame) (n : Z) : DataFrame :=
  {| schema := schema df;
     rows := if (0 <=? n)%Z then firstn (Z.to_nat n) (rows df)
             else firstn (length (rows df) - Z.to_nat (- n)) (rows df) |}.

(** The cell [fillna("")] leaves in place of [a]. *)
Definition filled (a : cell) : cell :=
  match a with
  | NaN | PyNone => Str ""
  | _ => a
  end.

(** [df.fillna("")] *)
Definition fillna (df : DataFrame) : DataFrame :=
  {| schema := schema df;
     rows := map (fun r => map (fun c => (c, filled (get r c))) (columns df))
                 (rows df) |}.

(** [df.to_dict(orient='records')] *)
Definition to_dict (df : DataFrame) : list record :=
  map (fun r => map (fun c => (c, get r c)) (columns df)) (rows df).

(** Truth values of optional arguments, as [if x:] tests them. *)
Definition nonempty_list {A : Type} (x : option (list A)) : option (list A) :=
  match x with
  | Some (a :: l) => Some (a :: l)
  | _ => None
  end.

Definition nonempty_string (x : option string) : option string :=
  match x with
  | Some (String a s) => Some (String a s)
  | _ => None
  end.

Definition nonzero (x : option Z) : option Z :=
  match x with
  | Some n => if (n =? 0)%Z then None else Some n
  | None => None
  end.

(** The outcome of [pd.to_datetime] on one value. *)
Inductive parsed : Type :=
| Stamp (t : Z)     (* a point in time *)
| NaT               (* a missing value *)
| Unparseable.      (* an exception, or [NaT] under [errors='coerce'] *)

Section Operations.

(** [pd.to_datetime] on one value, and [strftime('%Y-%m-%d')]. *)
Variable to_datetime : cell -> parsed.
Variable strftime : Z -> string.

Definition to_datetime_coerce (col : list cell) : list cell :=
  map (fun a => match to_datetime a with
                | Stamp t => Int t
                | _ => NaN
                end) col.

Definition to_datetime_scalar (s : string) : result (option Z) :=
  match to_datetime (Str s) with
  | Stamp t => Ok (Some t)
  | NaT => Ok None
  | Unparseable => Raise ValueError
  end.

Definition gt_stamp (after_dt : option Z) (col : list cell) : list bool :=
  map (fun a => match a, after_dt with
                | Int t, Some d => (d <? t)%Z
                | _, _ => false
                end) col.

Definition dt_strftime (col : list cell) : list cell :=
  map (fun a => match a with
                | Int t => Str (strftime t)
                | _ => NaN
                end) col.

(** *** Filter *)

Definition filter_profiles
  (fs : filesystem) (csv_path : string)
  (min_score max_score : option Z)
  (locations companies : option (list string))
  (current_role_only : option bool)
  (found_after_date : option string)
  (limit : option Z) : result (list record) :=
  match fs csv_path with
  | None => Ok []
  | Some f =>
      let* df := read_csv f in
      let* df :=
        if Py.mem "v2 Score" (columns df) then
          let* col := getitem df "v2 Score" in
          Ok (setitem df "v2 Score" numeric (to_numeric col))
        else Ok df in
      let* df :=
        match min_score with
        | Some s => let* col := getitem df "v2 Score" in
                    Ok (select df (ge_scalar s col))
        | None => Ok df
        end in
      let* df :=
        match max_score with
        | Some s => let* col := getitem df "v2 Score" in
                    Ok (select df (le_scalar s col))
        | None => Ok df
        end in
      let* df :=
        match nonempty_list locations with
        | Some l => let pattern := Py.join "|" l in
                    let* col := str_accessor df "Location" in
                    let* mask := str_contains_regex pattern col in
                    Ok (select df mask)
        | None => Ok df
        end in
      let* df :=
        match nonempty_list companies with
        | Some l => let pattern := Py.join "|" l in
                    let* col := str_accessor df "Company" in
                    let* mask := str_contains_regex pattern col in
                    Ok (select df mask)
        | None => Ok df
        end in
      let* df :=
        match current_role_only with
        | Some true => let* col := str_accessor df "CURRENT Role Mention" in
                       Ok (select df (str_startswith "YES" col))
        | _ => Ok df
        end in
      let* df :=
        match nonempty_string found_after_date with
        | Some d =>
            let* col := getitem df "Found Date" in
            let df := setitem df "Found Date" datetime (to_datetime_coerce col) in
            let* after_dt := to_datetime_scalar d in
            let* col := getitem df "Found Date" in
            let df := select df (gt_stamp after_dt col) in
            let* col := getitem df "Found Date" in
            Ok (setitem df "Found Date" object (dt_strftime col))
        | None => Ok df
        end in
      let df := if Py.mem "v2 Score" (columns df)
                then sort_values df "v2 Score" else df in
      let df := match nonzero limit with
                | Some n => head df n
                | None => df
                end in
      Ok (to_dict (fillna df))
  end.

(** *** Export of a segment *)

Record export_report : Type := mkExport {
  profiles_exported : Z;
  output_path : string;
  columns_included : list string
}.

(** [Path(p).is_absolute()] on POSIX: the path starts at the root. *)
Definition is_absolute (p : string) : bool :=
  match p with
  | String c _ => Ascii.eqb c "/"
  | EmptyString => false
  end.

(** [str(Path(p).absolute())] in a process whose working directory is
    [cwd]; the tidying of separators by [pathlib] is not represented. *)
Definition absolute (cwd p : string) : string :=
  if is_absolute p then p
  else if String.eqb cwd "/" then "/" ++ p
  else cwd ++ "/" ++ p.

(** [df[cols]] for a list of column names that are all present. *)
Definition project (df : DataFrame) (cols : list string) : DataFrame :=
  {| schema := map (fun c => (c, dtype_of (schema df) c)) cols;
     rows := rows df |}.

Definition export_segment
  (cwd : string) (fs : filesystem) (source_csv output_csv : string)
  (min_score : option Z) (locations companies columns_ : option (list string))
  : result export_report * filesystem :=
  match filter_profiles fs source_csv min_score None locations companies
                        None None None with
  | Raise e => (Raise e, fs)
  | Ok [] =>
      (Ok {| profiles_exported := 0;
             output_path := output_csv;
             columns_included := [] |}, fs)
  | Ok profiles =>
      let df := DataFrame_of profiles in
      let df := match nonempty_list columns_ with
                | Some cols =>
                    let existing_cols :=
                      filter (fun c => Py.mem c (columns df)) cols in
                    project df existing_cols
                | None => df
                end in
      (Ok {| profiles_exported := len df;
             output_path := absolute cwd output_csv;
             columns_included := columns df |},
       write fs output_csv (to_csv df))
  end.

End Operations.

(** ** Search *)

Definition default_search_columns : list string :=
  ["Headline"; "Company"; "Match Reason"; "CURRENT Role Mention"].

(** [mask |= other], element by element. *)
Definition mask_or (mask other : list bool) : list bool :=
  map (fun bb => orb (fst bb) (snd bb)) (combine mask other).

Definition search_mask (df : DataFrame) (search_term : string)
  (case_sensitive : bool) (search_cols : list string) : result (list bool) :=
  fold_left
    (fun acc col =>
       let* mask := acc in
       let* values := getitem df col in
       Ok (mask_or mask
             (str_contains_literal search_term case_sensitive (astype_str values))))
    search_cols
    (Ok (repeat false (length (rows df)))).

Definition search_profiles
  (fs : filesystem) (csv_path search_term : string)
  (columns_ : option (list string)) (case_sensitive : bool) (limit : option Z)
  : result (list record) :=
  match fs csv_path with
  | None => Ok []
  | Some f =>
      let* df := read_csv f in
      let search_cols := match nonempty_list columns_ with
                         | Some cols => cols
                         | None => default_search_columns
                         end in
      let search_cols := filter (fun c => Py.mem c (columns df)) search_cols in
      let* mask := search_mask df search_term case_sensitive search_cols in
      let result_df := select df mask in
      let* result_df :=
        if Py.mem "v2 Score" (columns result_df) then
          let* col := getitem result_df "v2 Score" in
          let result_df := setitem result_df "v2 Score" numeric (to_numeric col) in
          Ok (sort_values result_df "v2 Score")
        else Ok result_df in
      let result_df := match nonzero limit with
                       | Some n => head result_df n
                       | None => result_df
                       end in
      Ok (to_dict (fillna result_df))
  end.

(** ** Deduplicate *)

Inductive dedupe_report : Type :=
| FileNotFound                       (* [{"error": "File not found"}] *)
| Counts (original_count duplicates_removed final_count : Z).

Definition deduplicate_csv
  (fs : filesystem) (csv_path dedupe_column keep : string)
  : result dedupe_report * filesystem :=
  match fs csv_path with
  | None => (Ok FileNotFound, fs)
  | Some f =>
      let deduped :=
        let* df := read_csv f in
        let original_count := len df in
        let* df :=
          if Py.mem dedupe_column (columns df) then
            drop_duplicates (normalize_column df dedupe_column) dedupe_column keep
          else Ok df in
        Ok (original_count, df) in
      match deduped with
      | Raise e => (Raise e, fs)
      | Ok (original_count, df) =>
          let final_count := len df in
          (Ok (Counts original_count (original_count - final_count) final_count),
           write fs csv_path (to_csv df))
      end
  end.

(** ** Vocabulary of the statements *)

(** The rows a call finds on disk: none when the file is absent. *)
Definition existing_rows (fs : filesystem) (path : string) : list record :=
  match fs path with
  | Some f => match read_csv f with
              | Ok df => rows df
              | Raise _ => []
              end
  | None => []
  end.

Definition file_header (f : file) : list string :=
  match f with
  | Csv header _ => header
  | Garbage => []
  end.

Fixpoint index_of (c : string) (l : list string) : option nat :=
  match l with
  | [] => None
  | k :: l' => if String.eqb k c then Some O
               else option_map S (index_of c l')
  end.

(** The text fields a file stores under a column name. *)
Definition file_column (f : file) (c : string) : list string :=
  match f with
  | Csv header body =>
      match index_of c header with
      | Some j => map (fun row => field row j) body
      | None => []
      end
  | Garbage => []
  end.

(** The deduplication key of a row: its trimmed string form. *)
Definition key_of (c : string) (r : record) : string :=
  Py.strip (str_of (get r c)).

(** [Selected R l l']: [l'] lists, in the order of [l], the images under
    [R] of some of the rows of [l]. *)
Inductive Selected (R : record -> record -> Prop)
  : list record -> list record -> Prop :=
| Selected_nil : Selected R [] []
| Selected_skip r l l' : Selected R l l' -> Selected R (r :: l) l'
| Selected_keep r r' l l' :
    R r r' -> Selected R l l' -> Selected R (r :: l) (r' :: l').

(** Descending order of scores with the missing ones last. *)
Definition desc_nulls_last (a b : cell) : Prop :=
  match a, b with
  | Int x, Int y => (y <= x)%Z
  | Int _, _ => True
  | _, Int _ => False
  | _, _ => True
  end.

Definition sorted_by_score (l : list record) : Prop :=
  StronglySorted
    (fun r1 r2 => desc_nulls_last (get r1 "v2 Score") (get r2 "v2 Score")) l.


(** The keys a file stores are read back as the same texts. *)
Definition keys_read_back (f : file) (c : string) : bool :=
  match read_csv f with
  | Ok df =>
      if list_eq_dec string_dec (map (key_of c) (rows df)) (file_column f c)
      then true else false
  | Raise _ => false
  end.

(** A date parser that reads nothing, for calls that pass no date. *)
Definition no_dates : cell -> parsed := fun _ => Unparseable.
Definition no_format : Z -> string := fun _ => "".

Definition no_files : filesystem := fun _ => None.

(** The columns a search was asked to look at. *)
Definition requested_columns (columns_ : option (list string)) : list string :=
  match nonempty_list columns_ with
  | Some cols => cols
  | None => default_search_columns
  end.

(** What [search_profiles] does once the table is loaded and the columns to
    search are fixed. *)
Definition search_loaded (df : DataFrame) (search_term : string)
  (case_sensitive : bool) (limit : option Z) (search_cols : list string)
  : result (list record) :=
  let* mask := search_mask df search_term case_sensitive search_cols in
  let result_df := select df mask in
  let* result_df :=
    if Py.mem "v2 Score" (columns result_df) then
      let* col := getitem result_df "v2 Score" in
      let result_df := setitem result_df "v2 Score" numeric (to_numeric col) in
      Ok (sort_values result_df "v2 Score")
    else Ok result_df in
  let result_df := match nonzero limit with
                   | Some n => head result_df n
                   | None => result_df
                   end in
  Ok (to_dict (fillna result_df)).

(** Two records that agree on every column outside [E]. *)
Definition agree_off (E : list string) (r r' : record) : Prop :=
  forall c, ~ In c E -> get r' c = get r c.

(** The statements of [filter_profiles] after the table is loaded, one at
    a time; [filter_profiles] is their composition (see
    [filter_profiles_loaded]). *)
Section Stages.

Variable to_datetime : cell -> parsed.
Variable strftime : Z -> string.

Definition coerce_scores (df : DataFrame) : result DataFrame :=
  if Py.mem "v2 Score" (columns df) then
    let* col := getitem df "v2 Score" in
    Ok (setitem df "v2 Score" numeric (to_numeric col))
  else Ok df.

Definition keep_scores (cmp : Z -> list cell -> list bool)
  (bound : option Z) (df : DataFrame) : result DataFrame :=
  match bound with
  | Some s => let* col := getitem df "v2 Score" in
              Ok (select df (cmp s col))
  | None => Ok df
  end.

Definition keep_containing (c : string) (wanted : option (list string))
  (df : DataFrame) : result DataFrame :=
  match nonempty_list wanted with
  | Some l => let pattern := Py.join "|" l in
              let* col := str_accessor df c in
              let* mask := str_contains_regex pattern col in
              Ok (select df mask)
  | None => Ok df
  end.

Definition keep_current_role (current_role_only : option bool)
  (df : DataFrame) : result DataFrame :=
  match current_role_only with
  | Some true => let* col := str_accessor df "CURRENT Role Mention" in
                 Ok (select df (str_startswith "YES" col))
  | _ => Ok df
  end.

Definition keep_found_after (found_after_date : option string)
  (df : DataFrame) : result DataFrame :=
  match nonempty_string found_after_date with
  | Some d =>
      let* col := getitem df "Found Date" in
      let df := setitem df "Found Date" datetime
                        (to_datetime_coerce to_datetime col) in
      let* after_dt := to_datetime_scalar to_datetime d in
      let* col := getitem df "Found Date" in
      let df := select df (gt_stamp after_dt col) in
      let* col := getitem df "Found Date" in
      Ok (setitem df "Found Date" object (dt_strftime strftime col))
  | None => Ok df
  end.

Definition filter_loaded
  (min_score max_score : option Z)
  (locations companies : option (list string))
  (current_role_only : option bool)
  (found_after_date : option string) (df : DataFrame) : result DataFrame :=
  let* df := coerce_scores df in
  let* df := keep_scores ge_scalar min_score df in
  let* df := keep_scores le_scalar max_score df in
  let* df := keep_containing "Location" locations df in
  let* df := keep_containing "Company" companies df in
  let* df := keep_current_role current_role_only df in
  keep_found_after found_after_date df.

Definition sorted_if_scored (df : DataFrame) : DataFrame :=
  if Py.mem "v2 Score" (columns df) then sort_values df "v2 Score" else df.

Definition limited (limit : option Z) (df : DataFrame) : DataFrame :=
  match nonzero limit with
  | Some n => head df n
  | None => df
  end.

Definition answer (limit : option Z) (df : DataFrame) : list record :=
  to_dict (fillna (limited limit (sorted_if_scored df))).

End Stages.

(** The record that [fillna] followed by [to_dict] puts in the answer. *)
Definition rendered (cols : list string) (r : record) : record :=
  map (fun c => (c, get (map (fun c => (c, filled (get r c))) cols) c)) cols.

(** [keeps E df df']: [df'] has the columns of [df], and its rows are an
    ordered selection of the rows of [df], changed at most in the columns
    of [E]. *)
Definition keeps (E : list string) (df df' : DataFrame) : Prop :=
  columns df' = columns df /\
  Selected (agree_off E) (rows df) (rows df').

(** The test that [col >= s] and [col <= s] apply to one score. *)
Definition at_least (s : Z) (a : cell) : bool :=
  match a with Int z => (s <=? z)%Z | _ => false end.

Definition at_most (s : Z) (a : cell) : bool :=
  match a with Int z => (z <=? s)%Z | _ => false end.

(** A score that passes the bounds that were supplied. *)
Definition within (mn mx : option Z) (a : cell) : Prop :=
  (forall s, mn = Some s -> at_least s a = true) /\
  (forall m, mx = Some m -> at_most m a = true).

(** A small table for the examples. *)
Definition sample_file : file :=
  Csv ["Name"; "Location"; "Headline"; "v2 Score"]
      [["Ada"; "USA (Seattle)"; "Staff Engineer"; "21"];
       ["Bob"; "Berlin"; ""; "7"];
       ["Cy"; ""; "Designer"; ""];
       ["Di"; "USA Seattle"; "Manager"; "30"]].

Definition sample_fs : filesystem := write no_files "profiles.csv" sample_file.

(** C5 as the specification words it: with a score column, the answer
    under a limit [n], zero included, is sorted and is the first [n] rows
    of the answer without a limit. *)
Definition truncates_at_every_limit : Prop :=
  forall to_datetime strftime fs path mn mx locs comps role date n f df out full,
    fs path = Some f ->
    read_csv f = Ok df ->
    In "v2 Score" (columns df) ->
    (0 <= n)%Z ->
    filter_profiles to_datetime strftime fs path mn mx locs comps role date (Some n)
    = Ok out ->
    filter_profiles to_datetime strftime fs path mn mx locs comps role date None
    = Ok full ->
    sorted_by_score full /\ out = firstn (Z.to_nat n) full.

(** An answer row that shows a loaded row: outside [Found Date] it holds
    the loaded values, with the missing ones filled. *)
Definition shows (cols : list string) (r o : record) : Prop :=
  forall c, In c cols -> c <> "Found Date" -> get o c = filled (get r c).

(** Two rows that [sort_values] may leave in this order. *)
Definition in_order (c : string) (r1 r2 : record) : Prop :=
  score_before (get r1 c) (get r2 c) = true.

(** The row that [normalize_column] leaves in place of [r]. *)
Definition with_key (c : string) (r : record) : record :=
  set r c (normalized (get r c)).

(** [final] is what normalising the column [c] of [loaded] and dropping
    duplicates leaves: the normalised images of an ordered selection of
    rows whose keys are pairwise distinct and cover every key of [loaded]. *)
Definition deduped_from (c : string) (loaded final : list record) : Prop :=
  exists kept,
    Selected eq loaded kept /\
    final = map (with_key c) kept /\
    NoDup (map (key_of c) kept) /\
    (forall r, In r loaded -> In (key_of c r) (map (key_of c) kept)).

(** The grid [to_csv] writes for rows under a header. *)
Definition grid (cols : list string) (rs : list record) : list (list string) :=
  map (fun r => map (fun k => to_text (get r k)) cols) rs.


(** A table and a batch for the examples on keys. *)
Definition keyed_file : file :=
  Csv ["Name"; "LinkedIn URL"]
      [["Ada"; " https://example.org/in/ada"];
       ["Bob"; ""];
       ["Cy"; "https://example.org/in/ada "];
       ["Di"; ""]].

Definition keyed_fs : filesystem := write no_files "profiles.csv" keyed_file.

Definition keyed_batch : list record :=
  [[("Name", Str "Ed"); ("LinkedIn URL", Str "https://example.org/in/ed ")];
   [("Name", Str "Flo")];
   [("Name", Str "Ada B."); ("LinkedIn URL", Str "https://example.org/in/ada")]].

(** [term] occurs in [s] when case is ignored. *)
Definition contains_ignoring_case (term s : string) : bool :=
  Py.contains (Py.upper term) (Py.upper s).

(** The test [search_profiles] applies to the text of one cell. *)
Definition hit (term : string) (case_sensitive : bool) (s : string) : bool :=
  if case_sensitive then Py.contains term s
  else Py.contains (Py.upper term) (Py.upper s).







(** ** Statistics *)

Module Stats.

(** [round(avg_score, 2)]: the integer zero of the branch without a score
    column, or the rounded mean of the numeric scores; the floating-point
    value of the mean is left uninterpreted. *)
Inductive average : Type :=
| Zero
| RoundedMean (scores : list Z).

Record summary : Type := mkSummary {
  total_profiles : Z;
  avg_score : average;
  score_distribution : list (string * Z);
  location_breakdown : list (string * Z);
  company_size_breakdown : list (string * Z);
  found_date_range : string * string;
  current_role_count : Z
}.

Inductive report : Type :=
| FileNotFound                       (* [{"error": "File not found"}] *)
| Summary (s : summary).

End Stats.

(** [mask.sum()] *)
Definition mask_sum (mask : list bool) : Z :=
  Z.of_nat (length (filter (fun b : bool => b) mask)).

(** [col < bound]; a missing value compares false. *)
Definition lt_scalar (bound : Z) (col : list cell) : list bool :=
  map (fun a => match a with Int z => (z <? bound)%Z | _ => false end) col.

(** [mask & other], element by element. *)
Definition mask_and (mask other : list bool) : list bool :=
  map (fun bb => andb (fst bb) (snd bb)) (combine mask other).

(** The numbers of a column, in order: what [mean] averages. *)
Definition numbers (col : list cell) : list Z :=
  flat_map (fun a => match a with Int z => [z] | _ => [] end) col.

(** One more occurrence of [a] in a tally kept in order of first
    appearance. *)
Fixpoint bump (a : cell) (acc : list (cell * Z)) : list (cell * Z) :=
  match acc with
  | [] => [(a, 1%Z)]
  | (k, n) :: acc' =>
      if cell_eqb k a then (k, (n + 1)%Z) :: acc' else (k, n) :: bump a acc'
  end.

Definition tally (col : list cell) : list (cell * Z) :=
  fold_left (fun acc a => if isna a then acc else bump a acc) col [].

Fixpoint insert_count (kn : cell * Z) (l : list (cell * Z)) : list (cell * Z) :=
  match l with
  | [] => [kn]
  | h :: t =>
      if (snd h <=? snd kn)%Z then kn :: h :: t else h :: insert_count kn t
  end.

(** [col.value_counts()]: the distinct values that are not missing with
    their numbers of occurrences, the most frequent first. *)
Definition value_counts (col : list cell) : list (cell * Z) :=
  fold_right insert_count [] (tally col).

(** [{str(k): int(v) for k, v in counts.items()}] *)
Definition breakdown (counts : list (cell * Z)) : list (string * Z) :=
  map (fun kn => (str_of (fst kn), snd kn)) counts.

Fixpoint extremum (pick : Z -> Z -> Z) (l : list Z) : option Z :=
  match l with
  | [] => None
  | t :: l' => match extremum pick l' with
               | Some u => Some (pick t u)
               | None => Some t
               end
  end.

Section Statistics.

Variable to_datetime : cell -> parsed.
Variable strftime : Z -> string.

(** [str(found_dates.min().date()) if not found_dates.isna().all() else ""],
    and the same with [max]. *)
Definition date_bound (pick : Z -> Z -> Z) (found_dates : list cell) : string :=
  if forallb isna found_dates then ""
  else match extremum pick (numbers found_dates) with
       | Some t => strftime t
       | None => ""
       end.

Definition get_csv_stats (fs : filesystem) (csv_path : string)
  : result Stats.report :=
  match fs csv_path with
  | None => Ok Stats.FileNotFound
  | Some f =>
      let* df := read_csv f in
      let total := len df in
      let* scored :=
        if Py.mem "v2 Score" (columns df) then
          let* col := getitem df "v2 Score" in
          let df := setitem df "v2 Score" numeric (to_numeric col) in
          let* col := getitem df "v2 Score" in
          let avg_score := Stats.RoundedMean (numbers col) in
          let score_dist :=
            [("20+", mask_sum (ge_scalar 20 col));
             ("15-19", mask_sum (mask_and (ge_scalar 15 col) (lt_scalar 20 col)));
             ("10-14", mask_sum (mask_and (ge_scalar 10 col) (lt_scalar 15 col)));
             ("<10", mask_sum (lt_scalar 10 col))] in
          Ok (df, avg_score, score_dist)
        else Ok (df, Stats.Zero, []) in
      let '(df, avg_score, score_dist) := scored in
      let* col := getitem df "Location" in
      let location_breakdown := breakdown (firstn 10 (value_counts col)) in
      let* col := getitem df "Company Size" in
      let company_size_breakdown := breakdown (value_counts col) in
      let* col := getitem df "Found Date" in
      let found_dates := to_datetime_coerce to_datetime col in
      let date_range := (date_bound Z.min found_dates,
                         date_bound Z.max found_dates) in
      let* col := str_accessor df "CURRENT Role Mention" in
      let current_role_count := mask_sum (str_startswith "YES" col) in
      Ok (Stats.Summary
            {| Stats.total_profiles := total;
               Stats.avg_score := avg_score;
               Stats.score_distribution := score_dist;
               Stats.location_breakdown := location_breakdown;
               Stats.company_size_breakdown := company_size_breakdown;
               Stats.found_date_range := date_range;
               Stats.current_role_count := current_role_count |})
  end.

End Statistics.

(** A table with every column the statistics read. *)
Definition full_file : file :=
  Csv ["Name"; "LinkedIn URL"; "v2 Score"; "Location"; "Company";
       "Company Size"; "CURRENT Role Mention"; "Found Date"; "Headline"]
      [["Ada"; "https://example.org/in/ada"; "21"; "USA (Seattle)"; "Acme";
        "51-200"; "YES - staff engineer"; "d3"; "Staff Engineer"];
       ["Bob"; "https://example.org/in/bob"; "7"; "Berlin"; "Initech";
        "11-50"; "NO"; "d1"; "Designer"];
       ["Cy"; "https://example.org/in/cy"; "n/a"; ""; "Acme";
        "51-200"; ""; ""; "Founder"];
       ["Di"; "https://example.org/in/di"; "15"; "Berlin"; "Globex";
        ""; "YES"; "d2"; "Engineering Manager"];
       ["Ed"; "https://example.org/in/ed"; "20"; "Berlin"; "acme labs";
        "51-200"; "yes"; "later"; "Engineer"]].

Definition full_fs : filesystem := write no_files "profiles.csv" full_file.

(** A date parser for the examples: [d1], [d2], ... are the days 1, 2, ... *)
Definition day_dates (a : cell) : parsed :=
  match a with
  | NaN => NaT
  | Str (String "d" s) =>
      match Py.int_literal s with
      | Some z => Stamp z
      | None => Unparseable
      end
  | _ => Unparseable
  end.

Definition day_format (t : Z) : string := String "d" (Py.str_int t).

(** The dedupe column occurs in the table on disk or in a record of the
    batch: the test [dedupe_column in combined_df.columns]. *)
Definition column_known (fs : filesystem) (path : string)
  (profiles : list record) (c : string) : Prop :=
  (exists f, fs path = Some f /\ In c (file_header f)) \/
  (exists r, In r profiles /\ In c (map fst r)).


(** The requested columns that the table has, and the test a search
    applies to a row: the term occurs in the text of one of them. *)
Definition present_columns (df : DataFrame) (columns_ : option (list string))
  : list string :=
  filter (fun c => Py.mem c (columns df)) (requested_columns columns_).

Definition matching (present : list string) (term : string)
  (case_sensitive : bool) (r : record) : bool :=
  existsb (fun c => hit term case_sensitive (str_of (get r c))) present.

(** The number of cells of a column equal to [a]. *)
Definition occurrences (a : cell) (col : list cell) : Z :=
  Z.of_nat (length (filter (cell_eqb a) col)).

(** The first half of [get_csv_stats]: the frame with its scores coerced,
    the average and the bands; and its second half, which reads the four
    other columns. *)
Definition score_bands (col : list cell) : list (string * Z) :=
  [("20+", mask_sum (ge_scalar 20 col));
   ("15-19", mask_sum (mask_and (ge_scalar 15 col) (lt_scalar 20 col)));
   ("10-14", mask_sum (mask_and (ge_scalar 10 col) (lt_scalar 15 col)));
   ("<10", mask_sum (lt_scalar 10 col))].

Definition score_summary (df : DataFrame)
  : DataFrame * Stats.average * list (string * Z) :=
  if Py.mem "v2 Score" (columns df) then
    let col := to_numeric (map (fun r => get r "v2 Score") (rows df)) in
    (setitem df "v2 Score" numeric col,
     Stats.RoundedMean (numbers col), score_bands col)
  else (df, Stats.Zero, []).

Section StatisticsLoaded.

Variable to_datetime : cell -> parsed.
Variable strftime : Z -> string.

Definition stats_loaded (total : Z)
  (scored : DataFrame * Stats.average * list (string * Z))
  : result Stats.report :=
  let '(df, avg_score, score_dist) := scored in
  let* col := getitem df "Location" in
  let location_breakdown := breakdown (firstn 10 (value_counts col)) in
  let* col := getitem df "Company Size" in
  let company_size_breakdown := breakdown (value_counts col) in
  let* col := getitem df "Found Date" in
  let found_dates := to_datetime_coerce to_datetime col in
  let date_range := (date_bound strftime Z.min found_dates,
                     date_bound strftime Z.max found_dates) in
  let* col := str_accessor df "CURRENT Role Mention" in
  let current_role_count := mask_sum (str_startswith "YES" col) in
  Ok (Stats.Summary
        {| Stats.total_profiles := total;
           Stats.avg_score := avg_score;
           Stats.score_distribution := score_dist;
           Stats.location_breakdown := location_breakdown;
           Stats.company_size_breakdown := company_size_breakdown;
           Stats.found_date_range := date_range;
           Stats.current_role_count := current_role_count |}).

End StatisticsLoaded.

(** The columns that [get_csv_stats] reads without a test, in the order
    in which it reads them. *)
Definition stats_columns : list string :=
  ["Location"; "Company Size"; "Found Date"; "CURRENT Role Mention"].


(** A column of a loaded table, as read by name. *)
Definition column (df : DataFrame) (c : string) : list cell :=
  map (fun r => get r c) (rows df).

(** The numeric scores of a table: what is left of the score column once
    it is coerced. *)
Definition scores_of (df : DataFrame) : list Z :=
  numbers (to_numeric (column df "v2 Score")).

(** A column that holds text: every cell is a string or is missing, as in
    a column that [read_csv] gives the dtype [object]. *)
Definition text_cells (col : list cell) : Prop :=
  Forall (fun a => match a with Int _ => False | _ => True end) col.

(** Counts in descending order. *)
Definition by_count (x y : string * Z) : Prop := (snd y <= snd x)%Z.

(** ** Columns that pandas holds as text

    The embedding has no floats and no truth values, while [read_csv]
    re-types a whole column when every field of it reads as a number or as
    a truth value, and pandas turns the integers of a column with a
    missing value into floats.  Statements about the string forms of cells
    are therefore made for columns held as text, which is the case of the
    keys and the text columns the operations work on. *)









(** ** Lists, strings and keys *)

Lemma mem_In x l : Py.mem x l = true <-> In x l.
Proof.
  unfold Py.mem. rewrite existsb_exists. split.
  - intros (y & Hy & E). apply String.eqb_eq in E. now subst.
  - intros H. exists x. split; [exact H | apply String.eqb_refl].
Qed.

Lemma length_framed profiles : length (framed profiles) = length profiles.
Proof. apply length_map. Qed.

Lemma mem_false x l : Py.mem x l = false <-> ~ In x l.
Proof.
  rewrite <- mem_In. destruct (Py.mem x l); split; congruence.
Qed.

Lemma boolean_index_map (g : record -> bool) rs :
  boolean_index rs (map g rs) = filter g rs.
Proof.
  induction rs as [|r rs IH]; simpl; [reflexivity|].
  rewrite IH. reflexivity.
Qed.

Lemma boolean_index_repeat_false rs n :
  boolean_index rs (repeat false n) = [].
Proof.
  revert n. induction rs as [|r rs IH]; intros [|n]; simpl; auto.
Qed.

Lemma filter_none (l : list string) (g : string -> bool) :
  (forall c, In c l -> g c = false) -> filter g l = [].
Proof.
  induction l as [|c l IH]; simpl; intros H; [reflexivity|].
  rewrite (H c (or_introl eq_refl)). apply IH. intros; apply H; now right.
Qed.

Lemma filter_idem {A : Type} (g : A -> bool) l : filter g (filter g l) = filter g l.
Proof.
  induction l as [|c l IH]; simpl; [reflexivity|].
  destruct (g c) eqn:E; simpl; rewrite ?E, IH; reflexivity.
Qed.

(** ** Append: a file that does not parse *)

(** C8. When the destination exists but [read_csv] fails on it, the append
    raises that very error and hands back the file system it was given:
    nothing is written. *)
Theorem append_aborts_on_parse_failure :
  forall fs path profiles dedupe_column f e,
    fs path = Some f ->
    read_csv f = Raise e ->
    append_profiles_to_csv fs path profiles dedupe_column = (Raise e, fs).
Proof.
  intros fs path profiles dedupe_column f e Hf He.
  unfold append_profiles_to_csv. rewrite Hf, He. reflexivity.
Qed.

Lemma append_aborts_on_parse_failure_witness :
  let fs := write no_files "profiles.csv" Garbage in
  append_profiles_to_csv fs "profiles.csv"
    [[("LinkedIn URL", Str "https://example.org/in/ada")]] "LinkedIn URL"
  = (Raise ParserError, fs).
Proof.
  intros fs.
  apply (append_aborts_on_parse_failure fs "profiles.csv" _ "LinkedIn URL" Garbage);
    reflexivity.
Defined.

(** ** Search: columns that are not in the table *)

Lemma search_profiles_loaded fs path term columns_ case_sensitive limit f df :
  fs path = Some f ->
  read_csv f = Ok df ->
  search_profiles fs path term columns_ case_sensitive limit
  = search_loaded df term case_sensitive limit
      (filter (fun c => Py.mem c (columns df)) (requested_columns columns_)).
Proof.
  intros Hf Hdf. unfold search_profiles. rewrite Hf, Hdf. reflexivity.
Qed.

Lemma firstn_nil_any {A : Type} n : firstn n (@nil A) = [].
Proof. now destruct n. Qed.

Lemma finish_no_rows df limit :
  rows df = [] ->
  to_dict (fillna (match nonzero limit with
                   | Some n => head df n
                   | None => df
                   end)) = [].
Proof.
  intros H. unfold to_dict, fillna.
  destruct (nonzero limit) as [n|]; unfold head; cbn [rows]; rewrite H.
  - destruct (0 <=? n)%Z; rewrite firstn_nil_any; reflexivity.
  - reflexivity.
Qed.

Lemma search_loaded_nil df term case_sensitive limit :
  search_loaded df term case_sensitive limit [] = Ok [].
Proof.
  unfold search_loaded. cbn [search_mask fold_left bind].
  set (empty := select df (repeat false (length (rows df)))).
  assert (He : rows empty = []) by apply boolean_index_repeat_false.
  unfold getitem.
  destruct (Py.mem "v2 Score" (columns empty)); cbn [bind];
    f_equal; apply finish_no_rows; [|exact He].
  unfold sort_values, setitem. cbn [rows]. rewrite He. reflexivity.
Qed.

(** C10. Requested columns that the table lacks take no part in a search:
    the answer is that of the search over the requested columns that are
    present; and when none of the requested (or default) columns is
    present, the answer is the empty list. *)
Theorem search_ignores_absent_columns :
  forall fs path term columns_ case_sensitive limit f df,
    fs path = Some f ->
    read_csv f = Ok df ->
    let present := filter (fun c => Py.mem c (columns df))
                          (requested_columns columns_) in
    (present <> [] ->
     search_profiles fs path term columns_ case_sensitive limit
     = search_profiles fs path term (Some present) case_sensitive limit) /\
    (present = [] ->
     search_profiles fs path term columns_ case_sensitive limit = Ok []).
Proof.
  intros fs path term columns_ cs limit f df Hf Hdf present.
  rewrite !(search_profiles_loaded fs path term _ cs limit f df Hf Hdf).
  fold present. split.
  - intros Hne.
    assert (E : requested_columns (Some present) = present).
    { destruct present; [congruence | reflexivity]. }
    rewrite E. unfold present at 2. rewrite filter_idem. reflexivity.
  - intros ->. apply search_loaded_nil.
Qed.

Lemma search_ignores_absent_columns_witness :
  let f := Csv ["Name"; "Headline"] [["Ada"; "Engineer"]; ["Bob"; "Designer"]] in
  let fs := write no_files "profiles.csv" f in
  search_profiles fs "profiles.csv" "eng" (Some ["Zip"; "Headline"]) false None
  = search_profiles fs "profiles.csv" "eng" (Some ["Headline"]) false None /\
  search_profiles fs "profiles.csv" "eng" (Some ["Zip"]) false None = Ok [].
Proof.
  intros f fs. split.
  - eapply (proj1 (search_ignores_absent_columns fs "profiles.csv" "eng"
                     (Some ["Zip"; "Headline"]) false None f _ eq_refl eq_refl)).
    discriminate.
  - eapply (proj2 (search_ignores_absent_columns fs "profiles.csv" "eng"
                     (Some ["Zip"]) false None f _ eq_refl eq_refl)).
    reflexivity.
Defined.

(** ** Ordered selections *)

Lemma Selected_refl (R : record -> record -> Prop) l :
  (forall r, R r r) -> Selected R l l.
Proof.
  intros H. induction l; [apply Selected_nil | apply Selected_keep; auto].
Qed.

Lemma Selected_none (R : record -> record -> Prop) l : Selected R l [].
Proof. induction l; [apply Selected_nil | apply Selected_skip; auto]. Qed.

Lemma Selected_trans (R1 R2 R3 : record -> record -> Prop) l1 l2 l3 :
  (forall a b c, R1 a b -> R2 b c -> R3 a c) ->
  Selected R1 l1 l2 -> Selected R2 l2 l3 -> Selected R3 l1 l3.
Proof.
  intros HR H12. revert l3.
  induction H12 as [| r l l' _ IH | r r' l l' Hr _ IH]; intros l3 H23.
  - inversion H23; subst. apply Selected_nil.
  - apply Selected_skip. now apply IH.
  - inversion H23; subst.
    + apply Selected_skip. now apply IH.
    + apply Selected_keep; [eapply HR; eauto | now apply IH].
Qed.

Lemma Selected_mono (R R' : record -> record -> Prop) l l' :
  (forall a b, R a b -> R' a b) -> Selected R l l' -> Selected R' l l'.
Proof.
  intros HR H.
  induction H; [apply Selected_nil | apply Selected_skip | apply Selected_keep];
    auto.
Qed.

Lemma Selected_boolean_index (R : record -> record -> Prop) l mask :
  (forall r, R r r) -> Selected R l (boolean_index l mask).
Proof.
  intros HR. revert mask.
  induction l as [|r l IH]; intros [|[|] mask]; simpl.
  - apply Selected_nil.
  - apply Selected_nil.
  - apply Selected_nil.
  - apply Selected_none.
  - apply Selected_keep; auto.
  - apply Selected_skip; auto.
Qed.

Lemma Selected_firstn (R : record -> record -> Prop) l l' n :
  Selected R l l' -> Selected R l (firstn n l').
Proof.
  intros H. revert n.
  induction H as [| r l l' _ IH | r r' l l' Hr _ IH]; intros n.
  - rewrite firstn_nil. apply Selected_nil.
  - apply Selected_skip. apply IH.
  - destruct n; simpl.
    + apply Selected_none.
    + apply Selected_keep; auto.
Qed.

Lemma Selected_map (g : record -> record) l :
  Selected (fun r o => o = g r) l (map g l).
Proof.
  induction l; simpl; [apply Selected_nil | apply Selected_keep; auto].
Qed.

Lemma Selected_Forall (R : record -> record -> Prop) (P P' : record -> Prop) l l' :
  (forall r r', R r r' -> P r -> P' r') ->
  Selected R l l' -> Forall P l -> Forall P' l'.
Proof.
  intros HR H. induction H; intros HP; inversion HP; subst; eauto.
Qed.

Lemma Selected_length (R : record -> record -> Prop) l l' :
  Selected R l l' -> (length l' <= length l)%nat.
Proof. intros H. induction H; simpl; lia. Qed.

(** ** Records and frames *)

Lemma get_set_same r c v : get (set r c v) c = v.
Proof. unfold set. simpl. now rewrite String.eqb_refl. Qed.

Lemma get_set_other r c v c' : c' <> c -> get (set r c v) c' = get r c'.
Proof.
  intros H. unfold set. simpl.
  destruct (String.eqb_spec c c'); [congruence | reflexivity].
Qed.

Lemma agree_off_refl E r : agree_off E r r.
Proof. intros c _. reflexivity. Qed.

Lemma agree_off_trans E a b c :
  agree_off E a b -> agree_off E b c -> agree_off E a c.
Proof. intros H1 H2 k Hk. rewrite (H2 k Hk). now apply H1. Qed.

Lemma agree_off_incl E E' r r' :
  incl E E' -> agree_off E r r' -> agree_off E' r r'.
Proof. intros Hi H c Hc. apply H. intros Hin. apply Hc, Hi, Hin. Qed.

Lemma set_dtype_names sch c d :
  In c (map fst sch) -> map fst (set_dtype sch c d) = map fst sch.
Proof.
  induction sch as [|[k d'] sch IH]; simpl; [tauto|].
  intros [E | H].
  - subst. now rewrite String.eqb_refl.
  - destruct (String.eqb k c); simpl; [reflexivity | now rewrite IH].
Qed.

Lemma columns_setitem df c d vals :
  In c (columns df) -> columns (setitem df c d vals) = columns df.
Proof. apply set_dtype_names. Qed.

Lemma rows_setitem df c d vals :
  Selected (agree_off [c]) (rows df) (rows (setitem df c d vals)).
Proof.
  unfold setitem. cbn [rows]. revert vals.
  induction (rows df) as [|r l IH]; intros [|v vals]; simpl;
    auto using Selected_none, Selected_nil.
  apply Selected_keep; [|apply IH].
  intros k Hk. simpl. apply get_set_other. intros ->. apply Hk. now left.
Qed.

Lemma getitem_Ok df c col :
  getitem df c = Ok col ->
  In c (columns df) /\ col = map (fun r => get r c) (rows df).
Proof.
  unfold getitem. destruct (Py.mem c (columns df)) eqn:E; [|discriminate].
  intros [= <-]. split; [now apply mem_In | reflexivity].
Qed.

Lemma bind_Ok {A B : Type} (m : result A) (k : A -> result B) b :
  bind m k = Ok b -> exists a, m = Ok a /\ k a = Ok b.
Proof. destruct m; simpl; [eauto | discriminate]. Qed.

Lemma str_accessor_Ok df c col :
  str_accessor df c = Ok col ->
  In c (columns df) /\ col = map (fun r => get r c) (rows df).
Proof.
  unfold str_accessor. intros H. apply bind_Ok in H as (col' & H1 & H2).
  apply getitem_Ok in H1 as [Hin ->].
  destruct (dtype_of (schema df) c); try discriminate.
  injection H2 as <-. auto.
Qed.

Lemma keeps_refl E df : keeps E df df.
Proof. split; [reflexivity | apply Selected_refl, agree_off_refl]. Qed.

Lemma keeps_trans E df1 df2 df3 :
  keeps E df1 df2 -> keeps E df2 df3 -> keeps E df1 df3.
Proof.
  intros [C1 S1] [C2 S2]. split; [congruence|].
  eapply Selected_trans; [|exact S1|exact S2].
  intros a b c. apply agree_off_trans.
Qed.

Lemma keeps_incl E E' df df' : incl E E' -> keeps E df df' -> keeps E' df df'.
Proof.
  intros Hi [C S]. split; [exact C|].
  eapply Selected_mono; [|exact S]. intros a b. now apply agree_off_incl.
Qed.

Lemma keeps_select E df mask : keeps E df (select df mask).
Proof.
  split; [reflexivity|]. apply Selected_boolean_index, agree_off_refl.
Qed.

Lemma keeps_setitem df c d vals :
  In c (columns df) -> keeps [c] df (setitem df c d vals).
Proof.
  intros H. split; [now apply columns_setitem | apply rows_setitem].
Qed.

(** ** The pipeline of [filter_profiles] *)

Section FilterFacts.

Variable to_datetime : cell -> parsed.
Variable strftime : Z -> string.

Lemma filter_profiles_loaded fs path mn mx locs comps role date limit f df :
  fs path = Some f ->
  read_csv f = Ok df ->
  filter_profiles to_datetime strftime fs path mn mx locs comps role date limit
  = let* df' := filter_loaded to_datetime strftime mn mx locs comps role date df in
    Ok (answer limit df').
Proof.
  intros Hf Hdf. unfold filter_profiles. rewrite Hf, Hdf.
  unfold filter_loaded, coerce_scores, keep_scores, keep_containing,
    keep_current_role, keep_found_after, answer, limited, sorted_if_scored.
  cbn [bind].
  repeat match goal with
         | |- bind ?m _ = bind (bind ?m _) _ => destruct m; cbn [bind]
         | |- bind ?m _ = bind ?m _ => destruct m; cbn [bind]
         end; try reflexivity.
Qed.

Lemma coerce_scores_keeps df df' :
  coerce_scores df = Ok df' -> keeps ["v2 Score"] df df'.
Proof.
  unfold coerce_scores.
  destruct (Py.mem "v2 Score" (columns df)) eqn:E.
  - intros H. apply bind_Ok in H as (col & H1 & [= <-]).
    apply getitem_Ok in H1 as [Hin _]. now apply keeps_setitem.
  - intros [= <-]. apply keeps_refl.
Qed.

Lemma keep_scores_keeps E cmp bound df df' :
  keep_scores cmp bound df = Ok df' -> keeps E df df'.
Proof.
  unfold keep_scores. destruct bound as [s|].
  - intros H. apply bind_Ok in H as (col & _ & [= <-]). apply keeps_select.
  - intros [= <-]. apply keeps_refl.
Qed.

Lemma keep_containing_keeps E c wanted df df' :
  keep_containing c wanted df = Ok df' -> keeps E df df'.
Proof.
  unfold keep_containing. destruct (nonempty_list wanted) as [l|].
  - intros H. apply bind_Ok in H as (col & _ & H).
    apply bind_Ok in H as (mask & _ & [= <-]). apply keeps_select.
  - intros [= <-]. apply keeps_refl.
Qed.

Lemma keep_current_role_keeps E role df df' :
  keep_current_role role df = Ok df' -> keeps E df df'.
Proof.
  unfold keep_current_role. destruct role as [[|]|];
    try (intros [= <-]; apply keeps_refl).
  intros H. apply bind_Ok in H as (col & _ & [= <-]). apply keeps_select.
Qed.

Lemma keep_found_after_keeps date df df' :
  keep_found_after to_datetime strftime date df = Ok df' ->
  keeps ["Found Date"] df df'.
Proof.
  unfold keep_found_after. destruct (nonempty_string date) as [d|].
  - intros H. apply bind_Ok in H as (col & H1 & H).
    apply getitem_Ok in H1 as [Hin _].
    apply bind_Ok in H as (after_dt & _ & H).
    apply bind_Ok in H as (col2 & _ & H).
    apply bind_Ok in H as (col3 & H3 & [= <-]).
    apply getitem_Ok in H3 as [Hin3 _].
    eapply keeps_trans; [apply keeps_setitem, Hin|].
    eapply keeps_trans; [apply keeps_select|].
    apply keeps_setitem, Hin3.
  - intros [= <-]. apply keeps_refl.
Qed.

End FilterFacts.

(** ** Sorting by score, truncation and rendering *)

Lemma insert_row_perm c r l : Permutation (insert_row c r l) (r :: l).
Proof.
  induction l as [|h t IH]; simpl; [reflexivity|].
  destruct (score_before (get r c) (get h c)); [reflexivity|].
  rewrite IH. apply perm_swap.
Qed.

Lemma sort_values_perm df c : Permutation (rows (sort_values df c)) (rows df).
Proof.
  unfold sort_values. cbn [rows].
  induction (rows df) as [|r l IH]; simpl; [reflexivity|].
  rewrite insert_row_perm. now constructor.
Qed.

Lemma columns_sorted_if_scored df : columns (sorted_if_scored df) = columns df.
Proof.
  unfold sorted_if_scored. now destruct (Py.mem "v2 Score" (columns df)).
Qed.

Lemma columns_limited limit df : columns (limited limit df) = columns df.
Proof. unfold limited. now destruct (nonzero limit). Qed.

Lemma rows_limited limit df :
  exists n, rows (limited limit df) = firstn n (rows df).
Proof.
  unfold limited, head. destruct (nonzero limit) as [n|]; cbn [rows].
  - destruct (0 <=? n)%Z; eauto.
  - exists (length (rows df)). now rewrite firstn_all.
Qed.

Lemma Forall_firstn_of {A : Type} (P : A -> Prop) n l :
  Forall P l -> Forall P (firstn n l).
Proof.
  intros H. revert n. induction H; intros [|n]; simpl; constructor; auto.
Qed.

Lemma answer_rows limit df :
  answer limit df
  = map (rendered (columns df)) (rows (limited limit (sorted_if_scored df))).
Proof.
  unfold answer, to_dict, fillna, rendered. cbn [rows].
  change (columns {| schema := schema (limited limit (sorted_if_scored df));
                     rows := _ |})
    with (columns (limited limit (sorted_if_scored df))).
  rewrite columns_limited, columns_sorted_if_scored, map_map. reflexivity.
Qed.

Lemma get_tabulate (g : string -> cell) cols c :
  In c cols -> get (map (fun k => (k, g k)) cols) c = g c.
Proof.
  induction cols as [|k cols IH]; simpl; [tauto|].
  intros H. destruct (String.eqb_spec k c) as [->|Hne]; [reflexivity|].
  destruct H; [congruence | auto].
Qed.

Lemma get_rendered cols r c :
  In c cols -> get (rendered cols r) c = filled (get r c).
Proof.
  intros H. unfold rendered.
  rewrite (get_tabulate (fun k => get (map (fun c0 => (c0, filled (get r c0))) cols) k)
             cols c H).
  now rewrite (get_tabulate (fun k => filled (get r k)) cols c H).
Qed.

Lemma Forall_answer (P : cell -> Prop) limit df c :
  In c (columns df) ->
  Forall (fun r => P (filled (get r c))) (rows df) ->
  Forall (fun o => P (get o c)) (answer limit df).
Proof.
  intros Hc H. rewrite answer_rows. apply Forall_map.
  destruct (rows_limited limit (sorted_if_scored df)) as [n ->].
  apply Forall_firstn_of.
  assert (Hs : Forall (fun r => P (filled (get r c))) (rows (sorted_if_scored df))).
  { unfold sorted_if_scored. destruct (Py.mem "v2 Score" (columns df)); [|exact H].
    eapply Permutation_Forall; [symmetry; apply sort_values_perm | exact H]. }
  eapply Forall_impl; [|exact Hs]. intros r Hr. cbn beta.
  now rewrite get_rendered.
Qed.

(** ** Score bounds *)

Section ScoreBounds.

Variable to_datetime : cell -> parsed.
Variable strftime : Z -> string.

Lemma keep_scores_sound (test : cell -> bool) cmp s df df' :
  (forall col, cmp s col = map test col) ->
  keep_scores cmp (Some s) df = Ok df' ->
  In "v2 Score" (columns df) /\
  Forall (fun r => test (get r "v2 Score") = true) (rows df').
Proof.
  intros Hcmp H. unfold keep_scores in H.
  apply bind_Ok in H as (col & H1 & [= <-]).
  apply getitem_Ok in H1 as [Hin ->]. split; [exact Hin|].
  unfold select. cbn [rows]. rewrite Hcmp, map_map, boolean_index_map.
  apply Forall_forall. intros r Hr. now apply filter_In in Hr.
Qed.

Lemma keeps_Forall_column E (P : cell -> Prop) c df df' :
  ~ In c E -> keeps E df df' ->
  Forall (fun r => P (get r c)) (rows df) ->
  Forall (fun r => P (get r c)) (rows df').
Proof.
  intros Hc [_ HS]. eapply Selected_Forall; [|exact HS].
  intros r r' Hr. cbn beta. now rewrite (Hr c Hc).
Qed.

Lemma filter_loaded_bounds mn mx locs comps role date df df' :
  filter_loaded to_datetime strftime mn mx locs comps role date df = Ok df' ->
  columns df' = columns df /\
  Forall (fun r => within mn mx (get r "v2 Score")) (rows df') /\
  (mn <> None \/ mx <> None -> In "v2 Score" (columns df)).
Proof.
  unfold filter_loaded. intros H.
  apply bind_Ok in H as (df1 & H1 & H).
  apply bind_Ok in H as (df2 & H2 & H).
  apply bind_Ok in H as (df3 & H3 & H).
  apply bind_Ok in H as (df4 & H4 & H).
  apply bind_Ok in H as (df5 & H5 & H).
  apply bind_Ok in H as (df6 & H6 & H7).
  pose proof (coerce_scores_keeps _ _ H1) as K1.
  pose proof (keep_scores_keeps [] _ _ _ _ H2) as K2.
  pose proof (keep_scores_keeps [] _ _ _ _ H3) as K3.
  pose proof (keep_containing_keeps [] _ _ _ _ H4) as K4.
  pose proof (keep_containing_keeps [] _ _ _ _ H5) as K5.
  pose proof (keep_current_role_keeps [] _ _ _ H6) as K6.
  pose proof (keep_found_after_keeps _ _ _ _ _ H7) as K7.
  assert (K37 : keeps ["Found Date"] df3 df').
  { eapply keeps_trans; [eapply keeps_incl; [|exact K4]; intros ? []|].
    eapply keeps_trans; [eapply keeps_incl; [|exact K5]; intros ? []|].
    eapply keeps_trans; [eapply keeps_incl; [|exact K6]; intros ? []|].
    exact K7. }
  assert (C : columns df' = columns df).
  { destruct K1 as [C1 _], K2 as [C2 _], K3 as [C3 _], K37 as [C7 _]. congruence. }
  assert (N : ~ In "v2 Score" ["Found Date"]).
  { intros [E|[]]. discriminate. }
  split; [exact C|]. split.
  - apply (keeps_Forall_column ["Found Date"] (within mn mx) _ df3 df' N K37).
    assert (Hmn : Forall (fun r => forall s, mn = Some s ->
                              at_least s (get r "v2 Score") = true) (rows df3)).
    { destruct mn as [s|].
      - apply (keep_scores_sound (at_least s)) in H2 as [_ F]; [|reflexivity].
        apply (keeps_Forall_column [] (fun a => at_least s a = true) _ df2 df3
                 (fun x => x) K3) in F.
        eapply Forall_impl; [|exact F]. intros r Hr s' [= <-]. exact Hr.
      - apply Forall_forall. intros r _ s [=]. }
    assert (Hmx : Forall (fun r => forall m, mx = Some m ->
                              at_most m (get r "v2 Score") = true) (rows df3)).
    { destruct mx as [m|].
      - apply (keep_scores_sound (at_most m)) in H3 as [_ F]; [|reflexivity].
        eapply Forall_impl; [|exact F]. intros r Hr s' [= <-]. exact Hr.
      - apply Forall_forall. intros r _ s [=]. }
    rewrite Forall_forall in *. intros r Hr. split; auto.
  - destruct K1 as [C1 _], K2 as [C2 _].
    intros [Hn|Hn].
    + destruct mn as [s|]; [|congruence].
      apply (keep_scores_sound (at_least s)) in H2 as [I _]; [|reflexivity].
      unfold columns in *. congruence.
    + destruct mx as [m|]; [|congruence].
      apply (keep_scores_sound (at_most m)) in H3 as [I _]; [|reflexivity].
      unfold columns in *. congruence.
Qed.

(** C7. Every row that [filter_profiles] returns under [min_score = s]
    carries a number [z >= s] in [v2 Score], and under [max_score = m] a
    number [z <= m]; a row whose score is missing or is not a number is
    therefore never returned when a bound is given. *)
Theorem filter_respects_score_bounds :
  forall fs path mn mx locs comps role date limit out,
    filter_profiles to_datetime strftime fs path mn mx locs comps role date limit
    = Ok out ->
    Forall (fun o =>
              (forall s, mn = Some s ->
                         exists z, get o "v2 Score" = Int z /\ (s <= z)%Z) /\
              (forall m, mx = Some m ->
                         exists z, get o "v2 Score" = Int z /\ (z <= m)%Z)) out.
Proof.
  intros fs path mn mx locs comps role date limit out H.
  destruct (fs path) as [f|] eqn:Hf.
  2:{ unfold filter_profiles in H. rewrite Hf in H. injection H as <-. constructor. }
  destruct (read_csv f) as [df|e] eqn:Hdf.
  2:{ unfold filter_profiles in H. rewrite Hf, Hdf in H. discriminate. }
  rewrite (filter_profiles_loaded _ _ _ _ _ _ _ _ _ _ _ f df Hf Hdf) in H.
  apply bind_Ok in H as (df' & HL & [= <-]).
  apply filter_loaded_bounds in HL as (C & F & I).
  destruct mn as [s|], mx as [m|].
  4:{ apply Forall_forall. intros o _. split; intros ? [=]. }
  all: assert (Hc : In "v2 Score" (columns df'))
    by (rewrite C; apply I; (left; discriminate) || (right; discriminate)).
  all: apply (Forall_answer
           (fun a => (forall s0, _ = Some s0 -> exists z, a = Int z /\ (s0 <= z)%Z) /\
                     (forall m0, _ = Some m0 -> exists z, a = Int z /\ (z <= m0)%Z))
           limit df' "v2 Score" Hc).
  all: eapply Forall_impl; [|exact F].
  all: intros r [Hs Hm]; split; intros b [= <-].
  all: try specialize (Hs _ eq_refl); try specialize (Hm _ eq_refl).
  all: destruct (get r "v2 Score") as [| |t|z]; try discriminate; cbn [filled].
  all: exists z; split; [reflexivity|].
  all: unfold at_least, at_most in *; lia.
Qed.

End ScoreBounds.

Lemma filter_respects_score_bounds_witness :
  Forall (fun o =>
            (forall s, Some 21%Z = Some s ->
                       exists z, get o "v2 Score" = Int z /\ (s <= z)%Z) /\
            (forall m, Some 30%Z = Some m ->
                       exists z, get o "v2 Score" = Int z /\ (z <= m)%Z))
    [[("Name", Str "Di"); ("Location", Str "USA Seattle");
      ("Headline", Str "Manager"); ("v2 Score", Int 30)];
     [("Name", Str "Ada"); ("Location", Str "USA (Seattle)");
      ("Headline", Str "Staff Engineer"); ("v2 Score", Int 21)]].
Proof.
  apply (filter_respects_score_bounds no_dates no_format sample_fs "profiles.csv"
           (Some 21%Z) (Some 30%Z) None None None None None).
  reflexivity.
Defined.

(** ** Order of the answer *)

Lemma score_before_total a b : score_before a b = false -> score_before b a = true.
Proof.
  destruct a, b; simpl; try congruence. intros H.
  apply Z.leb_gt in H. apply Z.leb_le. lia.
Qed.

Lemma score_before_trans a b c :
  score_before a b = true -> score_before b c = true -> score_before a c = true.
Proof.
  destruct a, b, c; simpl; try congruence.
  rewrite !Z.leb_le. lia.
Qed.

Lemma score_before_desc a b :
  score_before a b = true <-> desc_nulls_last (filled a) (filled b).
Proof.
  destruct a, b; simpl; try tauto; try (split; [tauto | congruence]);
    try (split; [congruence | tauto]).
  apply Z.leb_le.
Qed.

Lemma insert_row_sorted c r l :
  StronglySorted (in_order c) l -> StronglySorted (in_order c) (insert_row c r l).
Proof.
  induction 1 as [|h t Ht IH Hh]; simpl.
  - repeat constructor.
  - destruct (score_before (get r c) (get h c)) eqn:E.
    + constructor; [now constructor|]. constructor; [exact E|].
      eapply Forall_impl; [|exact Hh]. intros x Hx.
      unfold in_order in *. eapply score_before_trans; eauto.
    + constructor; [exact IH|].
      eapply Permutation_Forall; [symmetry; apply insert_row_perm|].
      constructor; [|exact Hh]. now apply score_before_total.
Qed.

Lemma sort_values_sorted df c : StronglySorted (in_order c) (rows (sort_values df c)).
Proof.
  unfold sort_values. cbn [rows].
  induction (rows df) as [|r l IH]; simpl; [constructor|].
  now apply insert_row_sorted.
Qed.

Lemma StronglySorted_firstn {A : Type} (R : A -> A -> Prop) n l :
  StronglySorted R l -> StronglySorted R (firstn n l).
Proof.
  intros H. revert n. induction H as [|a l Hl IH Ha]; intros [|n]; simpl;
    try constructor; auto.
  now apply Forall_firstn_of.
Qed.

Lemma StronglySorted_map {A B : Type} (R : A -> A -> Prop) (Q : B -> B -> Prop)
  (g : A -> B) l :
  (forall a b, R a b -> Q (g a) (g b)) ->
  StronglySorted R l -> StronglySorted Q (map g l).
Proof.
  intros HR H. induction H as [|a l Hl IH Ha]; simpl; constructor; auto.
  apply Forall_map. eapply Forall_impl; [|exact Ha]. intros b. apply HR.
Qed.

Lemma answer_sorted limit df :
  In "v2 Score" (columns df) -> sorted_by_score (answer limit df).
Proof.
  intros Hc. rewrite answer_rows. unfold sorted_by_score.
  apply (StronglySorted_map (in_order "v2 Score")).
  - intros a b Hab. rewrite !get_rendered by exact Hc.
    now apply score_before_desc.
  - destruct (rows_limited limit (sorted_if_scored df)) as [n ->].
    apply StronglySorted_firstn. unfold sorted_if_scored.
    apply mem_In in Hc. rewrite Hc. apply sort_values_sorted.
Qed.

Lemma nonzero_positive n : (0 < n)%Z -> nonzero (Some n) = Some n.
Proof.
  intros H. unfold nonzero. destruct (Z.eqb_spec n 0); [lia | reflexivity].
Qed.

Lemma answer_limit_positive n df :
  (0 < n)%Z -> answer (Some n) df = firstn (Z.to_nat n) (answer None df).
Proof.
  intros H. rewrite !answer_rows, firstn_map. f_equal.
  unfold limited. rewrite (nonzero_positive n H). unfold head. cbn [rows nonzero].
  destruct (Z.leb_spec 0 n); [reflexivity | lia].
Qed.

Lemma answer_limit_zero df : answer (Some 0%Z) df = answer None df.
Proof. reflexivity. Qed.

Lemma answer_shows limit df :
  ~ In "v2 Score" (columns df) ->
  Selected (shows (columns df)) (rows df) (answer limit df).
Proof.
  intros Hc. rewrite answer_rows.
  destruct (rows_limited limit (sorted_if_scored df)) as [n ->].
  unfold sorted_if_scored. apply mem_false in Hc. rewrite Hc.
  rewrite <- firstn_map. apply Selected_firstn.
  eapply Selected_mono; [|apply Selected_map].
  intros r o -> c Hin _. now apply get_rendered.
Qed.

Section Ordering.

Variable to_datetime : cell -> parsed.
Variable strftime : Z -> string.

Lemma filter_loaded_keeps mn mx locs comps role date df df' :
  filter_loaded to_datetime strftime mn mx locs comps role date df = Ok df' ->
  keeps ["v2 Score"; "Found Date"] df df' /\
  (~ In "v2 Score" (columns df) -> keeps ["Found Date"] df df').
Proof.
  unfold filter_loaded. intros H.
  apply bind_Ok in H as (df1 & H1 & H).
  apply bind_Ok in H as (df2 & H2 & H).
  apply bind_Ok in H as (df3 & H3 & H).
  apply bind_Ok in H as (df4 & H4 & H).
  apply bind_Ok in H as (df5 & H5 & H).
  apply bind_Ok in H as (df6 & H6 & H7).
  assert (K17 : keeps ["Found Date"] df1 df').
  { eapply keeps_trans; [exact (keep_scores_keeps _ _ _ _ _ H2)|].
    eapply keeps_trans; [exact (keep_scores_keeps _ _ _ _ _ H3)|].
    eapply keeps_trans; [exact (keep_containing_keeps _ _ _ _ _ H4)|].
    eapply keeps_trans; [exact (keep_containing_keeps _ _ _ _ _ H5)|].
    eapply keeps_trans; [exact (keep_current_role_keeps _ _ _ _ H6)|].
    exact (keep_found_after_keeps _ _ _ _ _ H7). }
  split.
  - eapply keeps_trans.
    + eapply keeps_incl; [|exact (coerce_scores_keeps _ _ H1)].
      intros x [<-|[]]. now left.
    + eapply keeps_incl; [|exact K17]. intros x [<-|[]]. right. now left.
  - intros Hc. unfold coerce_scores in H1. apply mem_false in Hc.
    rewrite Hc in H1. injection H1 as <-. exact K17.
Qed.

(** C5, amended.  With a score column the answer is in descending order of
    score with the missing scores last; without one it lists loaded rows in
    load order.  A limit [n > 0] keeps the first [n] rows of the answer
    that no limit would give; a limit of zero is no limit at all. *)
Theorem filter_sorted_then_limited :
  forall fs path mn mx locs comps role date limit f df out,
    fs path = Some f ->
    read_csv f = Ok df ->
    filter_profiles to_datetime strftime fs path mn mx locs comps role date limit
    = Ok out ->
    exists full,
      filter_profiles to_datetime strftime fs path mn mx locs comps role date None
      = Ok full /\
      (In "v2 Score" (columns df) -> sorted_by_score out /\ sorted_by_score full) /\
      (~ In "v2 Score" (columns df) ->
       Selected (shows (columns df)) (rows df) out) /\
      (forall n, limit = Some n -> (0 < n)%Z -> out = firstn (Z.to_nat n) full) /\
      (limit = Some 0%Z \/ limit = None -> out = full).
Proof.
  intros fs path mn mx locs comps role date limit f df out Hf Hdf H.
  rewrite (filter_profiles_loaded _ _ _ _ _ _ _ _ _ _ _ f df Hf Hdf) in H.
  apply bind_Ok in H as (df' & HL & [= <-]).
  exists (answer None df').
  rewrite (filter_profiles_loaded _ _ _ _ _ _ _ _ _ _ _ f df Hf Hdf), HL.
  split; [reflexivity|].
  apply filter_loaded_keeps in HL as [[C K] K'].
  repeat split.
  - apply answer_sorted. now rewrite C.
  - apply answer_sorted. now rewrite C.
  - intros Hc. destruct (K' Hc) as [C' S'].
    pose proof (answer_shows limit df') as A. rewrite C' in A. specialize (A Hc).
    eapply Selected_trans; [|exact S'|exact A].
    intros a b c Hab Hbc k Hk Hne. rewrite (Hbc k Hk Hne). f_equal.
    apply Hab. intros [E|[]]. congruence.
  - intros n -> Hn. now apply answer_limit_positive.
  - intros [->| ->]; reflexivity.
Qed.

End Ordering.

Lemma filter_sorted_then_limited_witness :
  exists full,
    filter_profiles no_dates no_format sample_fs "profiles.csv"
      None None None None None None None = Ok full /\
    filter_profiles no_dates no_format sample_fs "profiles.csv"
      None None None None None None (Some 2%Z) = Ok (firstn 2 full) /\
    sorted_by_score full.
Proof.
  destruct (filter_sorted_then_limited no_dates no_format sample_fs "profiles.csv"
              None None None None None None (Some 2%Z) sample_file _ _
              eq_refl eq_refl eq_refl)
    as (full & Hfull & Hsorted & _ & Hlimit & _).
  exists full. split; [exact Hfull|]. split.
  - change 2%nat with (Z.to_nat 2).
    rewrite <- (Hlimit 2%Z eq_refl ltac:(lia)). reflexivity.
  - apply Hsorted. simpl. tauto.
Defined.

(** C5 as worded fails for a limit of zero: [if limit:] takes zero for no
    limit, and every row comes back. *)
Lemma limit_zero_returns_every_row : ~ truncates_at_every_limit.
Proof.
  intros H.
  destruct (H no_dates no_format sample_fs "profiles.csv"
              None None None None None None 0%Z sample_file _ _ _
              eq_refl eq_refl ltac:(simpl; tauto) ltac:(lia) eq_refl eq_refl)
    as [_ E].
  discriminate E.
Qed.

(** ** Dropping duplicates on a normalised column *)

Lemma Selected_app (R : record -> record -> Prop) l1 l1' l2 l2' :
  Selected R l1 l1' -> Selected R l2 l2' -> Selected R (l1 ++ l2) (l1' ++ l2').
Proof.
  intros H1 H2. induction H1; simpl;
    [exact H2 | apply Selected_skip | apply Selected_keep]; auto.
Qed.

Lemma Selected_rev (R : record -> record -> Prop) l l' :
  Selected R l l' -> Selected R (rev l) (rev l').
Proof.
  intros H. induction H as [| r l l' _ IH | r r' l l' Hr _ IH]; simpl.
  - apply Selected_nil.
  - rewrite <- (app_nil_r (rev l')). apply Selected_app; [exact IH|].
    apply Selected_skip, Selected_nil.
  - apply Selected_app; [exact IH|]. apply Selected_keep; [exact Hr|].
    apply Selected_nil.
Qed.

Lemma Selected_eq_In l l' r : Selected eq l l' -> In r l' -> In r l.
Proof.
  intros H. induction H as [| x l l' _ IH | x x' l l' Hx _ IH]; simpl; auto.
  intros [E|Hin]; [left; congruence | right; auto].
Qed.

Lemma existsb_Str k ks :
  existsb (cell_eqb (Str k)) (map Str ks) = true <-> In k ks.
Proof.
  rewrite existsb_exists. split.
  - intros (a & Ha & E). apply in_map_iff in Ha as (k' & <- & Hk').
    simpl in E. apply String.eqb_eq in E. now subst.
  - intros H. exists (Str k). split; [now apply in_map|].
    simpl. apply String.eqb_refl.
Qed.

Lemma get_with_key c r : get (with_key c r) c = Str (key_of c r).
Proof. unfold with_key. now rewrite get_set_same. Qed.

Lemma drop_dup_first_keys c ks l :
  exists kept,
    Selected eq l kept /\
    drop_dup_first c (map Str ks) (map (with_key c) l) = map (with_key c) kept /\
    NoDup (map (key_of c) kept) /\
    (forall k, In k (map (key_of c) kept) -> ~ In k ks) /\
    (forall r, In r l -> In (key_of c r) ks \/ In (key_of c r) (map (key_of c) kept)).
Proof.
  revert ks. induction l as [|r l IH]; intros ks.
  - exists []. simpl. split; [|split; [|split; [|split]]];
      try constructor; tauto.
  - cbn [map drop_dup_first]. rewrite get_with_key.
    destruct (existsb (cell_eqb (Str (key_of c r))) (map Str ks)) eqn:E.
    + apply existsb_Str in E.
      destruct (IH ks) as (kept & S & D & N & F & Cv).
      exists kept. split; [|split; [|split; [|split]]]; auto.
      * now apply Selected_skip.
      * intros x [<-|Hx]; [now left | now apply Cv].
    + assert (Hn : ~ In (key_of c r) ks).
      { intros H. apply existsb_Str in H. congruence. }
      destruct (IH (key_of c r :: ks)) as (kept & S & D & N & F & Cv).
      exists (r :: kept). cbn [map]. split; [|split; [|split; [|split]]].
      * now apply Selected_keep.
      * f_equal. exact D.
      * constructor; [|exact N]. intros H. apply (F _ H). now left.
      * intros k [<-|Hk]; [exact Hn|]. intros Hin. apply (F _ Hk). now right.
      * intros x [<-|Hx]; [right; now left|].
        destruct (Cv x Hx) as [[<-|H]|H]; [right; now left | now left | right; now right].
Qed.

Lemma drop_dup_first_deduped c l :
  deduped_from c l (drop_dup_first c [] (map (with_key c) l)).
Proof.
  destruct (drop_dup_first_keys c [] l) as (kept & S & D & N & _ & Cv).
  exists kept. repeat split; auto.
  intros r Hr. destruct (Cv r Hr) as [[]|H]; exact H.
Qed.

Lemma drop_dup_last_deduped c l :
  deduped_from c l (drop_dup_last c (map (with_key c) l)).
Proof.
  unfold drop_dup_last. rewrite <- map_rev.
  destruct (drop_dup_first_deduped c (rev l)) as (kept & S & D & N & Cv).
  exists (rev kept). repeat split.
  - rewrite <- (rev_involutive l). now apply Selected_rev.
  - now rewrite D, map_rev.
  - rewrite map_rev. apply NoDup_rev, N.
  - intros r Hr. rewrite map_rev, <- in_rev. apply Cv. now rewrite <- in_rev.
Qed.

Lemma rows_normalize_column df c :
  rows (normalize_column df c) = map (with_key c) (rows df).
Proof.
  unfold normalize_column, setitem. cbn [rows].
  induction (rows df) as [|r l IH]; simpl; [reflexivity|].
  now rewrite IH.
Qed.

Lemma drop_duplicates_deduped df c keep df' :
  drop_duplicates (normalize_column df c) c keep = Ok df' ->
  In c (columns df) ->
  columns df' = columns df /\ deduped_from c (rows df) (rows df').
Proof.
  unfold drop_duplicates. intros H Hc.
  assert (C : columns (normalize_column df c) = columns df)
    by now apply columns_setitem.
  rewrite rows_normalize_column in H.
  destruct (String.eqb keep "first").
  - injection H as <-. split; [exact C|]. apply drop_dup_first_deduped.
  - destruct (String.eqb keep "last"); [|discriminate].
    injection H as <-. split; [exact C|]. apply drop_dup_last_deduped.
Qed.

(** ** What a file stores under a column *)



Lemma columns_reindex cols df : columns (reindex cols df) = cols.
Proof.
  unfold columns, reindex. cbn [schema]. rewrite map_map. apply map_id.
Qed.

Lemma to_csv_reindex cols df :
  to_csv (reindex cols df) = Csv cols (grid cols (rows df)).
Proof. unfold to_csv. now rewrite columns_reindex. Qed.


Lemma strip_nan : Py.strip "nan" = "nan".
Proof. reflexivity. Qed.




(** ** What an append leaves behind *)



Lemma layout_names header body : map fst (layout header body) = header.
Proof.
  unfold layout.
  assert (L : forall (l : list string) (m : list (nat * bool)),
             length l = length m -> map fst (combine l m) = l).
  { induction l as [|x l IH]; intros [|y m]; simpl; try discriminate; auto.
    intros [= E]. now rewrite IH. }
  apply L. rewrite length_combine, length_map, length_seq. lia.
Qed.

Lemma read_csv_shape header body :
  exists df, read_csv (Csv header body) = Ok df /\
             columns df = header /\
             length (rows df) = length body.
Proof.
  eexists. split; [reflexivity|]. split.
  - unfold columns. cbn [schema]. rewrite map_map. cbn [fst].
    apply layout_names.
  - cbn [rows]. apply length_map.
Qed.




(** ** Trimming *)

Lemma lstrip_spec s :
  exists ws, s = (ws ++ Py.lstrip s)%string /\
             (forall c, In c (list_ascii_of_string ws) -> Py.isspace c = true) /\
             match Py.lstrip s with
             | String c _ => Py.isspace c = false
             | EmptyString => True
             end.
Proof.
  induction s as [|c s (ws & E & W & F)]; simpl.
  - exists "". simpl. tauto.
  - destruct (Py.isspace c) eqn:Hc.
    + exists (String c ws). simpl. split; [now rewrite <- E|].
      split; [|exact F]. intros x [<-|Hx]; auto.
    + exists "". simpl. tauto.
Qed.

Lemma rstrip_spec s :
  exists ws, s = (Py.rstrip s ++ ws)%string /\
             (forall c, In c (list_ascii_of_string ws) -> Py.isspace c = true) /\
             (forall t c, Py.rstrip s = (t ++ String c "")%string ->
                          Py.isspace c = false).
Proof.
  induction s as [|c s (ws & E & W & F)]; simpl.
  - exists "". simpl. split; [reflexivity|]. split; [tauto|].
    intros [|? ?] ? [=].
  - destruct (Py.rstrip s) as [|d t] eqn:R.
    + destruct (Py.isspace c) eqn:Hc.
      * exists (String c ws). simpl in *. split; [now rewrite <- E|].
        split; [intros x [<-|Hx]; auto|]. intros [|? ?] ? [=].
      * exists ws. simpl in *. split; [now rewrite <- E|]. split; [exact W|].
        intros [|a [|? ?]] x [=]; congruence.
    + exists ws. simpl in *. split; [now rewrite <- E|]. split; [exact W|].
      intros [|a u] x; simpl; intros [= -> Hu].
      now apply (F u x).
Qed.

(** ** The dedupe column on disk *)





(** ** Appending the same batch twice *)




Lemma same_keys_same_length (ks ks' : list string) :
  NoDup ks -> NoDup ks' -> incl ks ks' -> incl ks' ks -> length ks = length ks'.
Proof.
  intros N N' I I'.
  pose proof (NoDup_incl_length N I). pose proof (NoDup_incl_length N' I'). lia.
Qed.




(** ** Where the code leaves the specification *)

(** C2. [filter_profiles] joins the wanted locations into one pattern and
    hands it to [str.contains] as a regular expression.  Asked for
    [USA (Seattle)], it drops the row whose location is exactly that text
    and returns a row whose location does not contain it; asked for a dot,
    it returns every row that has a location. *)
Theorem filter_locations_read_as_pattern :
  filter_profiles no_dates no_format sample_fs "profiles.csv"
    None None (Some ["USA (Seattle)"]) None None None None
  = Ok [[("Name", Str "Di"); ("Location", Str "USA Seattle");
         ("Headline", Str "Manager"); ("v2 Score", Int 30)]] /\
  contains_ignoring_case "USA (Seattle)" "USA (Seattle)" = true /\
  contains_ignoring_case "USA (Seattle)" "USA Seattle" = false /\
  filter_profiles no_dates no_format sample_fs "profiles.csv"
    None None (Some ["."]) None None None None
  = Ok [[("Name", Str "Di"); ("Location", Str "USA Seattle");
         ("Headline", Str "Manager"); ("v2 Score", Int 30)];
        [("Name", Str "Ada"); ("Location", Str "USA (Seattle)");
         ("Headline", Str "Staff Engineer"); ("v2 Score", Int 21)];
        [("Name", Str "Bob"); ("Location", Str "Berlin");
         ("Headline", Str ""); ("v2 Score", Int 7)]] /\
  contains_ignoring_case "." "Berlin" = false.
Proof. repeat split; reflexivity. Qed.

(** C3. A criterion on a column that the table lacks is not skipped: the
    column is indexed without a test, and the call raises [KeyError]. *)
Theorem filter_raises_on_absent_column :
  read_csv keyed_file
  = Ok {| schema := [("Name", object); ("LinkedIn URL", object)];
          rows := existing_rows keyed_fs "profiles.csv" |} /\
  filter_profiles no_dates no_format keyed_fs "profiles.csv"
    (Some 10%Z) None None None None None None
  = Raise (KeyError "v2 Score") /\
  filter_profiles no_dates no_format keyed_fs "profiles.csv"
    None None (Some ["Berlin"]) None None None None
  = Raise (KeyError "Location") /\
  filter_profiles no_dates no_format keyed_fs "profiles.csv"
    None None None (Some ["Acme"]) None None None
  = Raise (KeyError "Company") /\
  filter_profiles no_dates no_format keyed_fs "profiles.csv"
    None None None None (Some true) None None
  = Raise (KeyError "CURRENT Role Mention") /\
  filter_profiles no_dates no_format keyed_fs "profiles.csv"
    None None None None None (Some "2026-02-16") None
  = Raise (KeyError "Found Date").
Proof. repeat split; reflexivity. Qed.

(** The same for every table and every bound. *)
Lemma filter_min_score_needs_column to_datetime strftime fs path f df s mx locs
  comps role date limit :
  fs path = Some f ->
  read_csv f = Ok df ->
  ~ In "v2 Score" (columns df) ->
  filter_profiles to_datetime strftime fs path (Some s) mx locs comps role date limit
  = Raise (KeyError "v2 Score").
Proof.
  intros Hf Hdf Hc. unfold filter_profiles. rewrite Hf, Hdf. cbn [bind].
  apply mem_false in Hc. unfold getitem.
  rewrite Hc. cbn [bind]. rewrite Hc. reflexivity.
Qed.

(** C4. [search_profiles] turns every cell into text before it looks for
    the term, so a missing cell is searched as the text [nan]: the row of
    Bob, whose headline is missing, is returned for the term [nan]. *)
Theorem search_matches_missing_cell :
  map (fun r => get r "Headline") (existing_rows sample_fs "profiles.csv")
  = [Str "Staff Engineer"; NaN; Str "Designer"; Str "Manager"] /\
  search_profiles sample_fs "profiles.csv" "nan" None false None
  = Ok [[("Name", Str "Bob"); ("Location", Str "Berlin");
         ("Headline", Str ""); ("v2 Score", Int 7)]].
Proof. split; reflexivity. Qed.

(** C6. When no row matches, [export_segment] reports the destination as
    it was given, not as an absolute path; when rows match, the path is
    made absolute. *)
Theorem export_zero_match_path_not_absolute :
  export_segment no_dates no_format "/home/u" sample_fs "profiles.csv" "out.csv"
    (Some 100%Z) None None None
  = (Ok {| profiles_exported := 0;
           output_path := "out.csv";
           columns_included := [] |}, sample_fs) /\
  is_absolute "out.csv" = false /\
  fst (export_segment no_dates no_format "/home/u" sample_fs "profiles.csv"
         "out.csv" (Some 30%Z) None None (Some ["v2 Score"; "Zip"; "Name"]))
  = Ok {| profiles_exported := 1;
          output_path := "/home/u/out.csv";
          columns_included := ["v2 Score"; "Name"] |}.
Proof. repeat split; reflexivity. Qed.

(** [strip] removes exactly the white space at both ends. *)
Lemma strip_spec s :
  exists l r,
    s = (l ++ Py.strip s ++ r)%string /\
    (forall c, In c (list_ascii_of_string l) -> Py.isspace c = true) /\
    (forall c, In c (list_ascii_of_string r) -> Py.isspace c = true) /\
    (forall c t, Py.strip s = String c t -> Py.isspace c = false) /\
    (forall t c, Py.strip s = (t ++ String c "")%string -> Py.isspace c = false).
Proof.
  destruct (lstrip_spec s) as (l & El & Wl & Fl).
  destruct (rstrip_spec (Py.lstrip s)) as (r & Er & Wr & Fr).
  exists l, r. unfold Py.strip. repeat split; auto.
  - now rewrite <- Er.
  - intros c t E. rewrite E in Er. rewrite Er in Fl. exact Fl.
Qed.

(** Reading the keys back unchanged is needed for a second append to add
    nothing: a key that is stored as the empty text is read back as a
    missing value, and the second append adds the record again. *)
Lemma append_blank_key_adds_again :
  exists r1 fs1 f1 r2 fs2,
    append_profiles_to_csv no_files "profiles.csv"
      [[("LinkedIn URL", Str " ")]] "LinkedIn URL" = (Ok r1, fs1) /\
    fs1 "profiles.csv" = Some f1 /\
    In "LinkedIn URL" (file_header f1) /\
    keys_read_back f1 "LinkedIn URL" = false /\
    append_profiles_to_csv fs1 "profiles.csv"
      [[("LinkedIn URL", Str " ")]] "LinkedIn URL" = (Ok r2, fs2) /\
    added r2 = 1%Z.
Proof.
  eexists _, _, _, _, _. split; [reflexivity|]. split; [reflexivity|].
  split; [simpl; tauto|]. split; [reflexivity|]. split; reflexivity.
Qed.

(** ** The report of an export *)

Lemma absolute_is_absolute cwd p :
  is_absolute cwd = true -> is_absolute (absolute cwd p) = true.
Proof.
  unfold absolute. intros H.
  destruct (is_absolute p) eqn:E; [exact E|].
  destruct (String.eqb cwd "/"); [reflexivity|].
  destruct cwd as [|a cwd]; [discriminate|]. exact H.
Qed.

(** An export either finds no row, writes nothing and echoes the
    destination, or writes the rows under the reported columns and
    reports the destination as an absolute path. *)
Lemma export_segment_report to_datetime strftime cwd fs source_csv output_csv
  mn locs comps cols rep fs' :
  export_segment to_datetime strftime cwd fs source_csv output_csv mn locs comps cols
  = (Ok rep, fs') ->
  (profiles_exported rep = 0%Z /\ columns_included rep = [] /\
   output_path rep = output_csv /\ fs' = fs) \/
  ((0 < profiles_exported rep)%Z /\
   output_path rep = absolute cwd output_csv /\
   exists body,
     fs' = write fs output_csv (Csv (columns_included rep) body) /\
     Z.of_nat (length body) = profiles_exported rep).
Proof.
  unfold export_segment.
  destruct (filter_profiles _ _ _ _ _ _ _ _ _ _ _) as [[|p ps]|e];
    [| |discriminate].
  - intros [= <- <-]. left. auto.
  - intros [= <- <-]. right. cbn [profiles_exported output_path columns_included].
    destruct (nonempty_list cols) as [l|]; unfold len, to_csv; cbn [rows project DataFrame_of].
    + split; [simpl; lia|]. split; [reflexivity|].
      eexists. split; [reflexivity|]. now rewrite length_map.
    + split; [simpl; lia|]. split; [reflexivity|].
      eexists. split; [reflexivity|]. now rewrite length_map.
Qed.

(** ** Literal search *)

Lemma prefix_app p s :
  String.prefix p s = true <-> exists post, s = (p ++ post)%string.
Proof.
  revert s. induction p as [|a p IH]; intros s.
  - split; [intros _; now exists s | intros _; now destruct s].
  - destruct s as [|b s]; simpl.
    + split; [discriminate | intros (post & [=])].
    + destruct (Ascii.ascii_dec a b) as [->|Hne].
      * rewrite IH. split; intros (post & E); exists post; [now rewrite E|].
        now injection E.
      * split; [discriminate | intros (post & [= E _]); congruence].
Qed.

(** [Py.contains p s] holds exactly when [p] is a contiguous part of [s]. *)
Lemma contains_spec p s :
  Py.contains p s = true <-> exists pre post, s = (pre ++ p ++ post)%string.
Proof.
  induction s as [|b s IH].
  - cbn [Py.contains]. rewrite orb_false_r, prefix_app. split.
    + intros (post & E). now exists "", post.
    + intros ([|? ?] & post & E); [now exists post | discriminate].
  - cbn [Py.contains]. rewrite orb_true_iff, prefix_app, IH. split.
    + intros [(post & E)|(pre & post & E)].
      * now exists "", post.
      * exists (String b pre), post. simpl. now rewrite E.
    + intros ([|a pre] & post & E).
      * left. now exists post.
      * right. injection E as _ E. now exists pre, post.
Qed.

Lemma mask_or_map (g h : record -> bool) l :
  mask_or (map g l) (map h l) = map (fun r => g r || h r) l.
Proof.
  unfold mask_or. induction l as [|r l IH]; simpl; [reflexivity|].
  now rewrite IH.
Qed.

Lemma repeat_false_map (l : list record) :
  repeat false (length l) = map (fun _ => false) l.
Proof. induction l; simpl; congruence. Qed.

Lemma getitem_In df c :
  In c (columns df) -> getitem df c = Ok (map (fun r => get r c) (rows df)).
Proof. intros H. unfold getitem. apply mem_In in H. now rewrite H. Qed.

Lemma search_mask_from df term case_sensitive cols (g : record -> bool) :
  (forall c, In c cols -> In c (columns df)) ->
  fold_left
    (fun acc col =>
       let* mask := acc in
       let* values := getitem df col in
       Ok (mask_or mask
             (str_contains_literal term case_sensitive (astype_str values))))
    cols (Ok (map g (rows df)))
  = Ok (map (fun r => g r ||
                      existsb (fun c => hit term case_sensitive (str_of (get r c)))
                              cols)
            (rows df)).
Proof.
  revert g. induction cols as [|c cols IH]; intros g Hc.
  - simpl. f_equal. apply map_ext. intros r. now rewrite orb_false_r.
  - cbn [fold_left bind].
    rewrite (getitem_In df c (Hc c (or_introl eq_refl))).
    cbn [bind]. unfold astype_str, str_contains_literal. rewrite !map_map.
    rewrite (mask_or_map g (fun r => hit term case_sensitive (str_of (get r c)))).
    rewrite IH; [|intros k Hk; apply Hc; now right].
    f_equal. apply map_ext. intros r. simpl. now rewrite orb_assoc.
Qed.

(** A row is selected by a search exactly when the term occurs in the
    text of one of its searched cells; a missing cell has the text [nan]. *)
Lemma search_mask_spec df term case_sensitive cols :
  (forall c, In c cols -> In c (columns df)) ->
  search_mask df term case_sensitive cols
  = Ok (map (fun r => existsb (fun c => hit term case_sensitive (str_of (get r c)))
                              cols)
            (rows df)).
Proof.
  intros Hc. unfold search_mask. rewrite repeat_false_map.
  now rewrite (search_mask_from df term case_sensitive cols (fun _ => false) Hc).
Qed.

(** ** Patterns without special characters *)
















(** ** More on appending *)

Lemma add_columns_In acc new c :
  In c (map fst (add_columns acc new)) <->
  In c (map fst acc) \/ In c (map fst new).
Proof.
  unfold add_columns. revert acc.
  induction new as [|kd new IH]; intros acc; simpl; [tauto|].
  rewrite IH. destruct (Py.mem (fst kd) (map fst acc)) eqn:M.
  - apply mem_In in M. split; [tauto|]. intros [H|[<-|H]]; auto.
  - rewrite map_app, in_app_iff. simpl. tauto.
Qed.

Lemma columns_DataFrame_of profiles c :
  In c (columns (DataFrame_of profiles)) <->
  exists r, In r profiles /\ In c (map fst r).
Proof.
  unfold columns, DataFrame_of. cbn [schema]. rewrite map_map. cbn [fst].
  assert (G : forall acc,
             In c (map fst (fold_left
                              (fun a r => add_columns a
                                            (map (fun kv : string * cell =>
                                                    (fst kv, object)) r))
                              profiles acc)) <->
             In c (map fst acc) \/ exists r, In r profiles /\ In c (map fst r)).
  { induction profiles as [|r profiles IH]; intros acc; simpl.
    - split; [tauto | intros [H|(r & [] & _)]; exact H].
    - rewrite IH, add_columns_In, map_map. cbn [fst]. split.
      + intros [[H|H]|(r' & H1 & H2)]; eauto.
      + intros [H|(r' & [<-|H1] & H2)]; eauto. }
  rewrite G. simpl. tauto.
Qed.

Lemma columns_concat_iff a b c :
  In c (columns (concat a b)) <-> In c (columns a) \/ In c (columns b).
Proof.
  unfold columns at 1, concat. cbn [schema]. rewrite map_map. cbn [fst].
  apply add_columns_In.
Qed.

(** What an append that returns has done, whether or not it deduplicated. *)
Lemma append_shape fs path profiles c rep fs' :
  append_profiles_to_csv fs path profiles c = (Ok rep, fs') ->
  exists cols final,
    fs' = write fs path (Csv cols (grid cols final)) /\
    total_profiles rep = Z.of_nat (length final) /\
    added rep = (Z.of_nat (length final)
                 - Z.of_nat (length (existing_rows fs path)))%Z /\
    skipped_duplicates rep = (Z.of_nat (length profiles) - added rep)%Z /\
    (forall f, fs path = Some f -> cols = file_header f) /\
    (fs path = None -> cols = columns (DataFrame_of profiles)) /\
    ((column_known fs path profiles c /\
      deduped_from c (existing_rows fs path ++ framed profiles) final) \/
     (~ column_known fs path profiles c /\
      final = existing_rows fs path ++ framed profiles)).
Proof.
  unfold append_profiles_to_csv, existing_rows, column_known.
  set (new_df := DataFrame_of profiles).
  assert (finish : forall existing cols combined,
    rows combined = rows existing ++ framed profiles ->
    match
      (if Py.mem c (columns combined)
       then drop_duplicates (normalize_column combined c) c "first"
       else Ok combined)
    with
    | Ok combined_df =>
        (Ok {| added := len combined_df - len existing;
               skipped_duplicates :=
                 Z.of_nat (length profiles) - (len combined_df - len existing);
               total_profiles := len combined_df |},
         write fs path (to_csv (reindex cols combined_df)))
    | Raise e => (Raise e, fs)
    end%Z = (Ok rep, fs') ->
    exists final,
      fs' = write fs path (Csv cols (grid cols final)) /\
      total_profiles rep = Z.of_nat (length final) /\
      added rep = (Z.of_nat (length final) - Z.of_nat (length (rows existing)))%Z /\
      skipped_duplicates rep = (Z.of_nat (length profiles) - added rep)%Z /\
      ((In c (columns combined) /\
        deduped_from c (rows existing ++ framed profiles) final) \/
       (~ In c (columns combined) /\ final = rows existing ++ framed profiles))).
  { intros existing cols combined Hrows H.
    destruct (Py.mem c (columns combined)) eqn:M.
    - destruct (drop_duplicates (normalize_column combined c) c "first")
        as [df'|e] eqn:D; [|discriminate].
      apply mem_In in M.
      apply drop_duplicates_deduped in D as [_ D]; [|exact M].
      injection H as <- <-. exists (rows df'). rewrite to_csv_reindex.
      repeat split. left. split; [exact M|]. now rewrite <- Hrows.
    - injection H as <- <-. exists (rows combined). rewrite to_csv_reindex.
      repeat split. right. apply mem_false in M. split; [exact M | exact Hrows]. }
  destruct (fs path) as [f|] eqn:Hf.
  - destruct f as [|header body]; [discriminate|].
    destruct (read_csv_shape header body) as (existing & Hr & Hc & _).
    rewrite Hr. cbn [bind]. intros H.
    apply finish in H as (final & H1 & H2 & H3 & H4 & H5); [|reflexivity].
    exists (columns existing), final.
    split; [exact H1|]. split; [exact H2|]. split; [exact H3|].
    split; [exact H4|]. split; [intros f' [= <-]; exact Hc|].
    split; [discriminate|].
    assert (E : In c (columns (concat existing new_df)) <->
                (exists f0, Some (Csv header body) = Some f0 /\ In c (file_header f0)) \/
                (exists r, In r profiles /\ In c (map fst r))).
    { rewrite columns_concat_iff, Hc. unfold new_df.
      rewrite columns_DataFrame_of. split.
      - intros [H|H]; [left; exists (Csv header body); auto | now right].
      - intros [(f0 & [= <-] & H)|H]; [now left | now right]. }
    destruct H5 as [[I D]|[I D]]; [left | right]; split; auto;
      [now apply E | intros K; now apply I, E].
  - intros H. change (rows (mkDF [] [])) with (@nil record).
    apply (finish (mkDF [] []) (columns new_df) new_df) in H
      as (final & H1 & H2 & H3 & H4 & H5); [|reflexivity].
    exists (columns new_df), final.
    split; [exact H1|]. split; [exact H2|]. split; [exact H3|].
    split; [exact H4|]. split; [discriminate|]. split; [reflexivity|].
    assert (E : In c (columns new_df) <->
                (exists f0, None = Some f0 /\ In c (file_header f0)) \/
                (exists r, In r profiles /\ In c (map fst r))).
    { unfold new_df. rewrite columns_DataFrame_of. split; [now right|].
      intros [(f0 & [=] & _)|H]; exact H. }
    destruct H5 as [[I D]|[I D]]; [left | right]; split; auto;
      [now apply E | intros K; now apply I, E].
Qed.

Lemma deduped_length c loaded final :
  deduped_from c loaded final -> (length final <= length loaded)%nat.
Proof.
  intros (kept & S & -> & _). rewrite length_map.
  now apply Selected_length in S.
Qed.

(** The report of an append adds up: the total is the old row count plus
    [added], every record of the batch is either added or skipped, and no
    more records are added than the batch holds. *)
Theorem append_report_adds_up :
  forall fs path profiles c rep fs',
    append_profiles_to_csv fs path profiles c = (Ok rep, fs') ->
    total_profiles rep
    = (Z.of_nat (length (existing_rows fs path)) + added rep)%Z /\
    (added rep + skipped_duplicates rep)%Z = Z.of_nat (length profiles) /\
    (0 <= skipped_duplicates rep)%Z /\
    (added rep <= Z.of_nat (length profiles))%Z /\
    (0 <= total_profiles rep)%Z.
Proof.
  intros fs path profiles c rep fs' H.
  apply append_shape in H as (cols & final & _ & T & A & S & _ & _ & D).
  assert (L : (length final <= length (existing_rows fs path) + length profiles)%nat).
  { destruct D as [[_ D]|[_ ->]].
    - apply deduped_length in D. now rewrite length_app, length_framed in D.
    - now rewrite length_app, length_framed. }
  lia.
Qed.

Lemma append_report_adds_up_witness :
  exists rep fs',
    append_profiles_to_csv keyed_fs "profiles.csv" keyed_batch "LinkedIn URL"
    = (Ok rep, fs') /\
    total_profiles rep = (4 + added rep)%Z /\
    (added rep + skipped_duplicates rep)%Z = 3%Z /\
    (0 <= skipped_duplicates rep)%Z /\
    (added rep <= 3)%Z /\
    (0 <= total_profiles rep)%Z.
Proof.
  eexists _, _. split; [reflexivity|].
  exact (append_report_adds_up keyed_fs "profiles.csv" keyed_batch "LinkedIn URL"
           _ _ eq_refl).
Defined.









(** ** What the writing operations leave alone *)


Lemma deduplicate_shape fs path c keep o d n fs' :
  deduplicate_csv fs path c keep = (Ok (Counts o d n), fs') ->
  exists f final,
    fs path = Some f /\
    fs' = write fs path (Csv (file_header f) (grid (file_header f) final)) /\
    o = Z.of_nat (length (existing_rows fs path)) /\
    n = Z.of_nat (length final) /\
    d = (o - n)%Z /\
    ((In c (file_header f) /\ deduped_from c (existing_rows fs path) final) \/
     (~ In c (file_header f) /\ final = existing_rows fs path)).
Proof.
  unfold deduplicate_csv, existing_rows.
  destruct (fs path) as [f|]; [|discriminate].
  destruct f as [|header body]; [discriminate|].
  destruct (read_csv_shape header body) as (df & Hr & Hc & _).
  rewrite Hr. cbn [bind file_header].
  destruct (Py.mem c (columns df)) eqn:M.
  - destruct (drop_duplicates (normalize_column df c) c keep) as [df'|e] eqn:D;
      [|discriminate].
    apply mem_In in M. apply drop_duplicates_deduped in D as [C D]; [|exact M].
    cbn [bind]. intros [= <- <- <- <-].
    exists (Csv header body), (rows df'). cbn [file_header].
    split; [reflexivity|]. split.
    { unfold to_csv, grid. now rewrite C, Hc. }
    repeat split. left. split; [now rewrite <- Hc | exact D].
  - cbn [bind]. intros [= <- <- <- <-].
    exists (Csv header body), (rows df). cbn [file_header].
    split; [reflexivity|]. split.
    { unfold to_csv, grid. now rewrite Hc. }
    repeat split. right. apply mem_false in M. split; [now rewrite <- Hc | reflexivity].
Qed.



Section Untouched.

Variable to_datetime : cell -> parsed.
Variable strftime : Z -> string.



End Untouched.



(** ** More on deduplication *)


Lemma deduped_same_length c loaded final final' :
  deduped_from c loaded final -> deduped_from c loaded final' ->
  length final = length final'.
Proof.
  intros (k1 & S1 & -> & N1 & C1) (k2 & S2 & -> & N2 & C2).
  rewrite !length_map.
  rewrite <- (length_map (key_of c) k1), <- (length_map (key_of c) k2).
  apply same_keys_same_length; auto.
  - intros k Hk. apply in_map_iff in Hk as (r & <- & Hr).
    apply C2. exact (Selected_eq_In _ _ _ S1 Hr).
  - intros k Hk. apply in_map_iff in Hk as (r & <- & Hr).
    apply C1. exact (Selected_eq_In _ _ _ S2 Hr).
Qed.

(** The counts of a deduplication add up, nothing is ever added, and a
    table without the dedupe column is written back with all its rows. *)
Theorem deduplicate_counts_add_up :
  forall fs path c keep o d n fs',
    deduplicate_csv fs path c keep = (Ok (Counts o d n), fs') ->
    o = Z.of_nat (length (existing_rows fs path)) /\
    o = (n + d)%Z /\ (0 <= d)%Z /\ (0 <= n)%Z /\
    ((forall f, fs path = Some f -> ~ In c (file_header f)) -> d = 0%Z).
Proof.
  intros fs path c keep o d n fs' H.
  apply deduplicate_shape in H as (f & final & Hf & _ & -> & -> & -> & D).
  assert (L : (length final <= length (existing_rows fs path))%nat).
  { destruct D as [[_ D]|[_ ->]]; [now apply deduped_length in D | lia]. }
  repeat split; try lia.
  intros N. destruct D as [[I _]|[_ ->]]; [|lia].
  now destruct (N f Hf).
Qed.

Lemma deduplicate_counts_add_up_witness :
  exists o d n fs',
    deduplicate_csv keyed_fs "profiles.csv" "LinkedIn URL" "first"
    = (Ok (Counts o d n), fs') /\
    o = 4%Z /\ o = (n + d)%Z /\ (0 <= d)%Z /\ (0 <= n)%Z.
Proof.
  destruct (deduplicate_counts_add_up keyed_fs "profiles.csv" "LinkedIn URL"
              "first" _ _ _ _ eq_refl) as (O & S & D & N & _).
  eexists _, _, _, _. split; [reflexivity|]. auto.
Defined.

(** Keeping the first or the last row of each group of duplicates leaves
    the same number of rows. *)
Theorem deduplicate_keep_policy_same_counts :
  forall fs path c o1 d1 n1 fs1 o2 d2 n2 fs2,
    deduplicate_csv fs path c "first" = (Ok (Counts o1 d1 n1), fs1) ->
    deduplicate_csv fs path c "last" = (Ok (Counts o2 d2 n2), fs2) ->
    o1 = o2 /\ d1 = d2 /\ n1 = n2.
Proof.
  intros fs path c o1 d1 n1 fs1 o2 d2 n2 fs2 H1 H2.
  apply deduplicate_shape in H1 as (f1 & final1 & Hf1 & _ & -> & -> & -> & D1).
  apply deduplicate_shape in H2 as (f2 & final2 & Hf2 & _ & -> & -> & -> & D2).
  assert (f2 = f1) by congruence. subst f2.
  assert (L : length final1 = length final2).
  { destruct D1 as [[I1 D1]|[I1 ->]], D2 as [[I2 D2]|[I2 ->]];
      try contradiction; [|reflexivity].
    eapply deduped_same_length; eauto. }
  rewrite L. auto.
Qed.

Lemma deduplicate_keep_policy_same_counts_witness :
  exists o d n fs1 fs2,
    deduplicate_csv keyed_fs "profiles.csv" "LinkedIn URL" "first"
    = (Ok (Counts o d n), fs1) /\
    deduplicate_csv keyed_fs "profiles.csv" "LinkedIn URL" "last"
    = (Ok (Counts o d n), fs2) /\
    fs1 "profiles.csv" <> fs2 "profiles.csv".
Proof.
  destruct (deduplicate_keep_policy_same_counts keyed_fs "profiles.csv"
              "LinkedIn URL" _ _ _ _ _ _ _ _ eq_refl eq_refl) as (O & D & N).
  eexists _, _, _, _, _. split; [reflexivity|]. split; [reflexivity|].
  discriminate.
Defined.








(** ** The shape of an answer *)



Lemma In_firstn {A : Type} (x : A) n l : In x (firstn n l) -> In x l.
Proof.
  revert n. induction l as [|a l IH]; intros [|n]; simpl; try tauto.
  intros [H|H]; eauto.
Qed.

Lemma answer_In limit df o :
  In o (answer limit df) ->
  exists r, In r (rows df) /\ o = rendered (columns df) r.
Proof.
  rewrite answer_rows. intros H. apply in_map_iff in H as (r & <- & Hr).
  exists r. split; [|reflexivity].
  destruct (rows_limited limit (sorted_if_scored df)) as [n E].
  rewrite E in Hr. apply In_firstn in Hr. unfold sorted_if_scored in Hr.
  destruct (Py.mem "v2 Score" (columns df)); [|exact Hr].
  eapply Permutation_in; [apply sort_values_perm | exact Hr].
Qed.

Lemma answer_length df : length (answer None df) = length (rows df).
Proof.
  rewrite answer_rows, length_map. unfold limited, sorted_if_scored.
  cbn [nonzero]. destruct (Py.mem "v2 Score" (columns df)); [|reflexivity].
  apply Permutation_length, sort_values_perm.
Qed.

Lemma Selected_In (R : record -> record -> Prop) l l' r' :
  Selected R l l' -> In r' l' -> exists r, In r l /\ R r r'.
Proof.
  intros S. induction S as [| x l l' _ IH | x x' l l' Hx _ IH]; simpl.
  - tauto.
  - intros H. destruct (IH H) as (r & Hr & Rr). eauto.
  - intros [<-|H]; [eauto|]. destruct (IH H) as (r & Hr & Rr). eauto.
Qed.

(** A search is a mask, the coercion of the scores of the selected rows,
    and the same ordering, truncation and rendering as a filter. *)
Lemma search_loaded_answer df term case_sensitive limit cols :
  search_loaded df term case_sensitive limit cols
  = let* mask := search_mask df term case_sensitive cols in
    let* selected := coerce_scores (select df mask) in
    Ok (answer limit selected).
Proof.
  unfold search_loaded, coerce_scores, answer, limited, sorted_if_scored.
  destruct (search_mask df term case_sensitive cols) as [mask|e]; [|reflexivity].
  cbn [bind].
  destruct (Py.mem "v2 Score" (columns (select df mask))) eqn:M.
  - unfold getitem. rewrite M. cbn [bind].
    assert (M' : Py.mem "v2 Score"
                   (columns (setitem (select df mask) "v2 Score" numeric
                      (to_numeric (map (fun r => get r "v2 Score")
                                       (rows (select df mask)))))) = true).
    { apply mem_In. rewrite columns_setitem; now apply mem_In. }
    now rewrite M'.
  - cbn [bind]. now rewrite M.
Qed.

Section Shape.

Variable to_datetime : cell -> parsed.
Variable strftime : Z -> string.




(** A filter invents no row: every record it returns shows a row of the
    table, with the same values outside the score and the found date, the
    missing ones filled. *)
Theorem filter_returns_rows_of_the_table :
  forall fs path f df mn mx locs comps role date limit out,
    fs path = Some f ->
    read_csv f = Ok df ->
    filter_profiles to_datetime strftime fs path mn mx locs comps role date limit
    = Ok out ->
    (length out <= length (rows df))%nat /\
    Forall (fun o =>
              exists r, In r (rows df) /\
                        forall c, In c (columns df) ->
                                  c <> "v2 Score" -> c <> "Found Date" ->
                                  get o c = filled (get r c)) out.
Proof.
  intros fs path f df mn mx locs comps role date limit out Hf Hr H.
  rewrite (filter_profiles_loaded _ _ _ _ _ _ _ _ _ _ _ _ df Hf Hr) in H.
  apply bind_Ok in H as (df' & HL & [= <-]).
  apply filter_loaded_keeps in HL as [[C S] _]. split.
  - rewrite answer_rows, length_map.
    destruct (rows_limited limit (sorted_if_scored df')) as [n E]. rewrite E.
    rewrite length_firstn. apply Selected_length in S.
    assert (L : length (rows (sorted_if_scored df')) = length (rows df')).
    { unfold sorted_if_scored. destruct (Py.mem _ _); [|reflexivity].
      apply Permutation_length, sort_values_perm. }
    lia.
  - apply Forall_forall. intros o Ho.
    apply answer_In in Ho as (r' & Hr' & ->).
    destruct (Selected_In _ _ _ _ S Hr') as (r & Hin & A).
    exists r. split; [exact Hin|]. intros c Hc N1 N2.
    rewrite get_rendered by (now rewrite C). f_equal. apply A.
    intros [E|[E|[]]]; congruence.
Qed.

End Shape.


Lemma filter_returns_rows_of_the_table_witness :
  exists out,
    filter_profiles no_dates no_format sample_fs "profiles.csv"
      (Some 8%Z) None None None None None None = Ok out /\
    (length out <= 4)%nat /\
    Forall (fun o =>
              exists r, In r (existing_rows sample_fs "profiles.csv") /\
                        forall c, In c ["Name"; "Location"; "Headline"; "v2 Score"] ->
                                  c <> "v2 Score" -> c <> "Found Date" ->
                                  get o c = filled (get r c)) out.
Proof.
  eexists. split; [reflexivity|].
  exact (filter_returns_rows_of_the_table no_dates no_format sample_fs
           "profiles.csv" sample_file _ (Some 8%Z) None None None None None None _
           eq_refl eq_refl eq_refl).
Defined.

(** ** What each criterion of a filter guarantees *)

Lemma rows_setitem_map df c d (g : cell -> cell) :
  rows (setitem df c d (map g (map (fun r => get r c) (rows df))))
  = map (fun r => set r c (g (get r c))) (rows df).
Proof.
  unfold setitem. cbn [rows].
  induction (rows df) as [|r l IH]; simpl; [reflexivity|]. now rewrite IH.
Qed.

Lemma select_map_rows df (g : cell -> bool) c :
  rows (select df (map g (map (fun r => get r c) (rows df))))
  = filter (fun r => g (get r c)) (rows df).
Proof. unfold select. cbn [rows]. now rewrite map_map, boolean_index_map. Qed.

Section Criteria.

Variable to_datetime : cell -> parsed.
Variable strftime : Z -> string.







End Criteria.


(** ** Searching *)

Lemma coerce_scores_runs df :
  exists d, coerce_scores df = Ok d /\
            keeps ["v2 Score"] df d /\
            length (rows d) = length (rows df).
Proof.
  unfold coerce_scores. destruct (Py.mem "v2 Score" (columns df)) eqn:M.
  - apply mem_In in M. rewrite (getitem_In df _ M). cbn [bind].
    eexists. split; [reflexivity|]. split; [now apply keeps_setitem|].
    unfold to_numeric. now rewrite rows_setitem_map, length_map.
  - exists df. split; [reflexivity|]. split; [apply keeps_refl | reflexivity].
Qed.

Lemma search_profiles_runs fs path term cols case_sensitive f df :
  fs path = Some f ->
  read_csv f = Ok df ->
  exists d,
    coerce_scores
      (select df (map (matching (present_columns df cols) term case_sensitive)
                      (rows df))) = Ok d /\
    keeps ["v2 Score"]
          (select df (map (matching (present_columns df cols) term case_sensitive)
                          (rows df))) d /\
    length (rows d)
    = length (filter (matching (present_columns df cols) term case_sensitive)
                     (rows df)) /\
    forall limit,
      search_profiles fs path term cols case_sensitive limit = Ok (answer limit d).
Proof.
  intros Hf Hr.
  destruct (coerce_scores_runs
              (select df (map (matching (present_columns df cols) term case_sensitive)
                              (rows df)))) as (d & Hd & K & L).
  exists d. split; [exact Hd|]. split; [exact K|]. split.
  - rewrite L. unfold select. cbn [rows]. now rewrite boolean_index_map.
  - intros limit.
    rewrite (search_profiles_loaded _ _ _ _ _ _ _ df Hf Hr), search_loaded_answer.
    fold (present_columns df cols).
    rewrite search_mask_spec.
    + cbn [bind]. fold (matching (present_columns df cols) term case_sensitive).
      rewrite Hd. reflexivity.
    + intros c Hc. unfold present_columns in Hc. apply filter_In in Hc as [_ Hc].
      now apply mem_In.
Qed.

Lemma search_unlimited_count fs path term cols case_sensitive f df :
  fs path = Some f ->
  read_csv f = Ok df ->
  exists out,
    search_profiles fs path term cols case_sensitive None = Ok out /\
    length out
    = length (filter (matching (present_columns df cols) term case_sensitive)
                     (rows df)).
Proof.
  intros Hf Hr.
  destruct (search_profiles_runs fs path term cols case_sensitive f df Hf Hr)
    as (d & _ & _ & L & H).
  exists (answer None d). split; [apply H|]. now rewrite answer_length.
Qed.



(** The answer of a search is ordered and truncated as that of a filter:
    by descending score with the missing scores last when the table has a
    score column, in load order otherwise; a limit [n > 0] keeps the first
    [n] records, and a limit of zero is no limit. *)
Theorem search_sorted_then_limited :
  forall fs path term cols case_sensitive limit f df out,
    fs path = Some f ->
    read_csv f = Ok df ->
    search_profiles fs path term cols case_sensitive limit = Ok out ->
    exists full,
      search_profiles fs path term cols case_sensitive None = Ok full /\
      (In "v2 Score" (columns df) -> sorted_by_score out /\ sorted_by_score full) /\
      (~ In "v2 Score" (columns df) ->
       Selected (fun r o => forall c, In c (columns df) -> get o c = filled (get r c))
                (rows df) out) /\
      (forall n, limit = Some n -> (0 < n)%Z -> out = firstn (Z.to_nat n) full) /\
      (limit = Some 0%Z \/ limit = None -> out = full).
Proof.
  intros fs path term cols cs limit f df out Hf Hr H.
  destruct (search_profiles_runs fs path term cols cs f df Hf Hr)
    as (d & Hco & [C S] & _ & Hd).
  rewrite Hd in H. injection H as <-.
  exists (answer None d). split; [apply Hd|].
  change (columns (select df _)) with (columns df) in C.
  split; [|split; [|split]].
  - intros Hc. split; apply answer_sorted; now rewrite C.
  - intros Hc. apply mem_false in Hc.
    unfold coerce_scores in Hco.
    change (columns (select df _)) with (columns df) in Hco.
    rewrite Hc in Hco. injection Hco as <-.
    rewrite answer_rows.
    destruct (rows_limited limit (sorted_if_scored (select df
                (map (matching (present_columns df cols) term cs) (rows df)))))
      as [n E].
    rewrite E. unfold sorted_if_scored.
    change (columns (select df _)) with (columns df). rewrite Hc.
    rewrite <- firstn_map. apply Selected_firstn.
    apply (Selected_trans eq (fun r o => o = rendered (columns df) r)
             (fun r o => forall c, In c (columns df) -> get o c = filled (get r c))
             (rows df)
             (rows (select df (map (matching (present_columns df cols) term cs)
                                   (rows df))))).
    + intros a b c0 -> -> k Hk. now apply get_rendered.
    + apply Selected_boolean_index. reflexivity.
    + apply Selected_map.
  - intros n -> Hn. now apply answer_limit_positive.
  - intros [->| ->]; reflexivity.
Qed.

Lemma search_sorted_then_limited_witness :
  exists full,
    search_profiles full_fs "profiles.csv" "e" None false None = Ok full /\
    search_profiles full_fs "profiles.csv" "e" None false (Some 2%Z)
    = Ok (firstn 2 full) /\
    sorted_by_score full.
Proof.
  destruct (search_sorted_then_limited full_fs "profiles.csv" "e" None false
              (Some 2%Z) full_file _ _ eq_refl eq_refl eq_refl)
    as (full & Hfull & Hsorted & _ & Hlimit & _).
  exists full. split; [exact Hfull|]. split.
  - change 2%nat with (Z.to_nat 2).
    rewrite <- (Hlimit 2%Z eq_refl ltac:(lia)). reflexivity.
  - apply Hsorted. simpl. tauto.
Defined.

Lemma upper_app a b : Py.upper (a ++ b)%string = (Py.upper a ++ Py.upper b)%string.
Proof. induction a as [|c a IH]; simpl; congruence. Qed.

Lemma contains_upper p s :
  Py.contains p s = true -> Py.contains (Py.upper p) (Py.upper s) = true.
Proof.
  rewrite !contains_spec. intros (pre & post & ->).
  exists (Py.upper pre), (Py.upper post). now rewrite !upper_app.
Qed.

Lemma contains_empty s : Py.contains "" s = true.
Proof. apply contains_spec. now exists "", s. Qed.

Lemma filter_length_mono {A : Type} (g h : A -> bool) l :
  (forall x, g x = true -> h x = true) ->
  (length (filter g l) <= length (filter h l))%nat.
Proof.
  intros H. induction l as [|x l IH]; simpl; [lia|].
  destruct (g x) eqn:G.
  - rewrite (H x G). simpl. lia.
  - destruct (h x); simpl; lia.
Qed.

Lemma filter_all {A : Type} (g : A -> bool) l :
  (forall x, g x = true) -> filter g l = l.
Proof.
  intros H. induction l as [|x l IH]; simpl; [reflexivity|].
  now rewrite H, IH.
Qed.

(** Two edges of a search.  The empty term occurs in every text, so it
    returns every row as soon as one searched column is present.  And a
    case-sensitive search never returns more rows than the same search
    with case ignored. *)
Theorem search_term_edges :
  forall fs path cols f df,
    fs path = Some f ->
    read_csv f = Ok df ->
    (present_columns df cols <> [] ->
     forall case_sensitive,
     exists out,
       search_profiles fs path "" cols case_sensitive None = Ok out /\
       length out = length (rows df)) /\
    (forall term,
     exists exact loose,
       search_profiles fs path term cols true None = Ok exact /\
       search_profiles fs path term cols false None = Ok loose /\
       (length exact <= length loose)%nat).
Proof.
  intros fs path cols f df Hf Hr. split.
  - intros Hp cs.
    destruct (search_unlimited_count fs path "" cols cs f df Hf Hr)
      as (out & H & L).
    exists out. split; [exact H|]. rewrite L. f_equal. apply filter_all.
    intros r. unfold matching.
    destruct (present_columns df cols) as [|c l]; [congruence|].
    cbn [existsb]. unfold hit. cbn [Py.upper].
    destruct cs; now rewrite contains_empty.
  - intros term.
    destruct (search_unlimited_count fs path term cols true f df Hf Hr)
      as (o1 & H1 & L1).
    destruct (search_unlimited_count fs path term cols false f df Hf Hr)
      as (o2 & H2 & L2).
    exists o1, o2. split; [exact H1|]. split; [exact H2|].
    rewrite L1, L2. apply filter_length_mono. intros r. unfold matching.
    rewrite !existsb_exists. intros (c & Hc & Hh). exists c. split; [exact Hc|].
    unfold hit in *. now apply contains_upper.
Qed.

Lemma search_term_edges_witness :
  (exists out,
      search_profiles sample_fs "profiles.csv" "" None true None = Ok out /\
      length out = 4%nat) /\
  (exists exact loose,
      search_profiles sample_fs "profiles.csv" "design" None true None = Ok exact /\
      search_profiles sample_fs "profiles.csv" "design" None false None = Ok loose /\
      (length exact <= length loose)%nat).
Proof.
  destruct (search_term_edges sample_fs "profiles.csv" None sample_file _
              eq_refl eq_refl) as [E M].
  split.
  - destruct (E ltac:(discriminate) true) as (out & H & L).
    exists out. split; [exact H | exact L].
  - exact (M "design").
Defined.

Section Unfiltered.

Variable to_datetime : cell -> parsed.
Variable strftime : Z -> string.

(** A filter whose criteria are all left out, or given empty (an empty
    list, an empty date, [current_role_only] false, a limit of zero),
    returns every row of the table. *)
Theorem filter_without_criteria_returns_every_row :
  forall fs path header body locs comps role date limit,
    fs path = Some (Csv header body) ->
    (locs = None \/ locs = Some []) ->
    (comps = None \/ comps = Some []) ->
    (role = None \/ role = Some false) ->
    (date = None \/ date = Some "") ->
    (limit = None \/ limit = Some 0%Z) ->
    exists out,
      filter_profiles to_datetime strftime fs path None None locs comps role date
                      limit = Ok out /\
      length out = length body.
Proof.
  intros fs path header body locs comps role date limit Hf Hl Hc Hro Hd Hli.
  destruct (read_csv_shape header body) as (df & Hr & _ & Hlen).
  destruct (coerce_scores_runs df) as (d & Hco & _ & L).
  exists (answer None d). split.
  - rewrite (filter_profiles_loaded _ _ _ _ _ _ _ _ _ _ _ _ df Hf Hr).
    unfold filter_loaded. rewrite Hco. cbn [bind keep_scores].
    unfold keep_containing, keep_current_role, keep_found_after.
    destruct Hl as [-> | ->], Hc as [-> | ->], Hro as [-> | ->],
      Hd as [-> | ->], Hli as [-> | ->]; reflexivity.
  - now rewrite answer_length, L.
Qed.

End Unfiltered.

Lemma filter_without_criteria_returns_every_row_witness :
  exists out,
    filter_profiles no_dates no_format sample_fs "profiles.csv" None None
      (Some []) None (Some false) (Some "") (Some 0%Z) = Ok out /\
    length out = 4%nat.
Proof.
  exact (filter_without_criteria_returns_every_row no_dates no_format sample_fs
           "profiles.csv" _ _ (Some []) None (Some false) (Some "") (Some 0%Z)
           eq_refl ltac:(now right) ltac:(now left) ltac:(now right)
           ltac:(now right) ltac:(now right)).
Defined.

(** ** More on exporting *)





Section Exporting.

Variable to_datetime : cell -> parsed.
Variable strftime : Z -> string.


End Exporting.


(** ** Statistics *)

Lemma column_after_setitem df c d (g : cell -> cell) :
  map (fun r => get r c)
      (rows (setitem df c d (map g (map (fun r => get r c) (rows df)))))
  = map g (map (fun r => get r c) (rows df)).
Proof.
  rewrite rows_setitem_map, !map_map. apply map_ext. intros r.
  apply get_set_same.
Qed.

Lemma column_after_to_numeric df c d :
  map (fun r => get r c)
      (rows (setitem df c d (to_numeric (map (fun r => get r c) (rows df)))))
  = to_numeric (map (fun r => get r c) (rows df)).
Proof. unfold to_numeric. apply column_after_setitem. Qed.

Lemma get_csv_stats_loaded to_datetime strftime fs path f df :
  fs path = Some f ->
  read_csv f = Ok df ->
  get_csv_stats to_datetime strftime fs path
  = stats_loaded to_datetime strftime (len df) (score_summary df).
Proof.
  intros Hf Hr. unfold get_csv_stats, score_summary. rewrite Hf, Hr. cbn [bind].
  destruct (Py.mem "v2 Score" (columns df)) eqn:M; [|reflexivity].
  apply mem_In in M. rewrite (getitem_In df _ M). cbn [bind].
  rewrite getitem_In by (rewrite columns_setitem; exact M). cbn [bind].
  rewrite column_after_to_numeric. reflexivity.
Qed.

Lemma dtype_of_set_dtype_other sch c d k :
  k <> c -> dtype_of (set_dtype sch c d) k = dtype_of sch k.
Proof.
  intros H. induction sch as [|[k' d'] sch IH]; simpl.
  - destruct (String.eqb_spec c k); [congruence | reflexivity].
  - destruct (String.eqb_spec k' c) as [->|Hne]; simpl.
    + destruct (String.eqb_spec c k); [congruence | reflexivity].
    + destruct (String.eqb_spec k' k); [reflexivity | exact IH].
Qed.

Lemma score_summary_frame df :
  columns (fst (fst (score_summary df))) = columns df /\
  length (rows (fst (fst (score_summary df)))) = length (rows df) /\
  forall c, c <> "v2 Score" ->
            dtype_of (schema (fst (fst (score_summary df)))) c
            = dtype_of (schema df) c /\
            map (fun r => get r c) (rows (fst (fst (score_summary df))))
            = map (fun r => get r c) (rows df).
Proof.
  unfold score_summary. destruct (Py.mem "v2 Score" (columns df)) eqn:M;
    cbn [fst]; [|auto].
  apply mem_In in M. split; [now apply columns_setitem|].
  unfold to_numeric. rewrite rows_setitem_map. split; [apply length_map|].
  intros c Hc. split.
  - now apply dtype_of_set_dtype_other.
  - rewrite map_map. apply map_ext. intros r. now apply get_set_other.
Qed.

Section StatisticsFacts.

Variable to_datetime : cell -> parsed.
Variable strftime : Z -> string.

(** [get_csv_stats] tolerates a table without scores, but not one without
    a location, a company size, a found date or a role mention: it raises
    [KeyError] for the first of these columns that is absent, in the order
    in which it reads them.  With the four columns present and the role
    mentions held as text it returns a summary, whose total is the number
    of rows and whose average and bands are empty when there is no score
    column. *)
Theorem statistics_need_four_columns :
  forall fs path f df,
    fs path = Some f ->
    read_csv f = Ok df ->
    (forall c,
        find (fun c => negb (Py.mem c (columns df))) stats_columns = Some c ->
        get_csv_stats to_datetime strftime fs path = Raise (KeyError c)) /\
    (find (fun c => negb (Py.mem c (columns df))) stats_columns = None ->
     dtype_of (schema df) "CURRENT Role Mention" = object ->
     exists s,
       get_csv_stats to_datetime strftime fs path = Ok (Stats.Summary s) /\
       Stats.total_profiles s = Z.of_nat (length (rows df)) /\
       (~ In "v2 Score" (columns df) ->
        Stats.avg_score s = Stats.Zero /\ Stats.score_distribution s = [])).
Proof.
  intros fs path f df Hf Hr.
  rewrite (get_csv_stats_loaded _ _ _ _ _ _ Hf Hr).
  destruct (score_summary_frame df) as (C & _ & D).
  assert (Z0 : ~ In "v2 Score" (columns df) ->
               snd (fst (score_summary df)) = Stats.Zero /\
               snd (score_summary df) = []).
  { intros N. apply mem_false in N. unfold score_summary. now rewrite N. }
  destruct (score_summary df) as [[d avg] dist]. cbn [fst snd] in *.
  unfold stats_loaded, str_accessor, getitem, stats_columns. rewrite C.
  cbn [find].
  destruct (Py.mem "Location" (columns df)); cbn [negb bind].
  2:{ split; [now intros c [= <-] | discriminate]. }
  destruct (Py.mem "Company Size" (columns df)); cbn [negb bind].
  2:{ split; [now intros c [= <-] | discriminate]. }
  destruct (Py.mem "Found Date" (columns df)); cbn [negb bind].
  2:{ split; [now intros c [= <-] | discriminate]. }
  destruct (Py.mem "CURRENT Role Mention" (columns df)); cbn [negb bind].
  2:{ split; [now intros c [= <-] | discriminate]. }
  split; [discriminate|]. intros _ Hd.
  rewrite (proj1 (D "CURRENT Role Mention" ltac:(discriminate))), Hd.
  eexists. split; [reflexivity|]. cbn. split; [reflexivity | exact Z0].
Qed.

End StatisticsFacts.

Lemma statistics_need_four_columns_witness :
  get_csv_stats day_dates day_format sample_fs "profiles.csv"
  = Raise (KeyError "Company Size") /\
  exists s,
    get_csv_stats day_dates day_format
      (write no_files "p.csv"
             (Csv stats_columns [["Berlin"; "11-50"; "d4"; "YES"]])) "p.csv"
    = Ok (Stats.Summary s) /\
    Stats.total_profiles s = 1%Z /\
    Stats.avg_score s = Stats.Zero /\ Stats.score_distribution s = [].
Proof.
  split.
  - destruct (statistics_need_four_columns day_dates day_format sample_fs
                "profiles.csv" sample_file _ eq_refl eq_refl) as [K _].
    apply K. reflexivity.
  - destruct (statistics_need_four_columns day_dates day_format
                (write no_files "p.csv"
                       (Csv stats_columns [["Berlin"; "11-50"; "d4"; "YES"]]))
                "p.csv" _ _ eq_refl eq_refl) as [_ S].
    destruct (S eq_refl eq_refl) as (s & H & T & Z0).
    exists s. split; [exact H|]. split; [exact T|]. apply Z0.
    simpl. intuition discriminate.
Defined.






Lemma extremum_none pick l : extremum pick l = None <-> l = [].
Proof.
  destruct l as [|t l]; simpl; [tauto|].
  destruct (extremum pick l); split; discriminate.
Qed.

Lemma extremum_min l m :
  extremum Z.min l = Some m -> In m l /\ forall t, In t l -> (m <= t)%Z.
Proof.
  revert m. induction l as [|t l IH]; intros m; simpl; [discriminate|].
  destruct (extremum Z.min l) as [u|] eqn:E.
  - intros [= <-]. destruct (IH u eq_refl) as [Hin Hle]. split.
    + destruct (Z.min_spec t u) as [[_ ->]|[_ ->]]; auto.
    + intros x [<-|Hx]; [lia|]. specialize (Hle x Hx). lia.
  - intros [= <-]. apply extremum_none in E. subst l. split; [now left|].
    intros x [<-|[]]. lia.
Qed.

Lemma extremum_max l m :
  extremum Z.max l = Some m -> In m l /\ forall t, In t l -> (t <= m)%Z.
Proof.
  revert m. induction l as [|t l IH]; intros m; simpl; [discriminate|].
  destruct (extremum Z.max l) as [u|] eqn:E.
  - intros [= <-]. destruct (IH u eq_refl) as [Hin Hle]. split.
    + destruct (Z.max_spec t u) as [[_ ->]|[_ ->]]; auto.
    + intros x [<-|Hx]; [lia|]. specialize (Hle x Hx). lia.
  - intros [= <-]. apply extremum_none in E. subst l. split; [now left|].
    intros x [<-|[]]. lia.
Qed.

Lemma date_bound_extremum strftime pick found_dates :
  date_bound strftime pick found_dates
  = match extremum pick (numbers found_dates) with
    | Some t => strftime t
    | None => ""
    end.
Proof.
  unfold date_bound. destruct (forallb isna found_dates) eqn:A; [|reflexivity].
  assert (E : numbers found_dates = []).
  { induction found_dates as [|a l IH]; [reflexivity|].
    simpl in A. apply andb_true_iff in A as [Ha Hl].
    destruct a; try discriminate; simpl; now apply IH. }
  now rewrite E.
Qed.

Section StatisticsValues.

Variable to_datetime : cell -> parsed.
Variable strftime : Z -> string.

Lemma stats_loaded_inv total d avg dist s :
  stats_loaded to_datetime strftime total (d, avg, dist) = Ok (Stats.Summary s) ->
  Stats.total_profiles s = total /\
  Stats.avg_score s = avg /\
  Stats.score_distribution s = dist /\
  Stats.location_breakdown s
  = breakdown (firstn 10 (value_counts (column d "Location"))) /\
  Stats.company_size_breakdown s
  = breakdown (value_counts (column d "Company Size")) /\
  Stats.found_date_range s
  = (date_bound strftime Z.min (to_datetime_coerce to_datetime (column d "Found Date")),
     date_bound strftime Z.max (to_datetime_coerce to_datetime (column d "Found Date"))) /\
  Stats.current_role_count s
  = mask_sum (str_startswith "YES" (column d "CURRENT Role Mention")) /\
  dtype_of (schema d) "CURRENT Role Mention" = object /\
  Forall (fun c => In c (columns d)) stats_columns.
Proof.
  unfold stats_loaded. intros H.
  apply bind_Ok in H as (c1 & H1 & H). apply getitem_Ok in H1 as [I1 ->].
  apply bind_Ok in H as (c2 & H2 & H). apply getitem_Ok in H2 as [I2 ->].
  apply bind_Ok in H as (c3 & H3 & H). apply getitem_Ok in H3 as [I3 ->].
  apply bind_Ok in H as (c4 & H4 & H).
  pose proof (str_accessor_Ok _ _ _ H4) as [I4 ->].
  unfold str_accessor in H4. rewrite (getitem_In d _ I4) in H4. cbn [bind] in H4.
  injection H as <-. cbn.
  repeat split; auto.
  - destruct (dtype_of (schema d) "CURRENT Role Mention"); congruence.
  - repeat constructor; assumption.
Qed.

Lemma get_csv_stats_inv fs path f df s :
  fs path = Some f ->
  read_csv f = Ok df ->
  get_csv_stats to_datetime strftime fs path = Ok (Stats.Summary s) ->
  Stats.total_profiles s = Z.of_nat (length (rows df)) /\
  (In "v2 Score" (columns df) ->
   Stats.avg_score s = Stats.RoundedMean (scores_of df) /\
   Stats.score_distribution s = score_bands (to_numeric (column df "v2 Score"))) /\
  Stats.location_breakdown s
  = breakdown (firstn 10 (value_counts (column df "Location"))) /\
  Stats.company_size_breakdown s
  = breakdown (value_counts (column df "Company Size")) /\
  Stats.found_date_range s
  = (date_bound strftime Z.min (to_datetime_coerce to_datetime (column df "Found Date")),
     date_bound strftime Z.max (to_datetime_coerce to_datetime (column df "Found Date"))) /\
  Stats.current_role_count s
  = mask_sum (str_startswith "YES" (column df "CURRENT Role Mention")) /\
  dtype_of (schema df) "CURRENT Role Mention" = object /\
  Forall (fun c => In c (columns df)) stats_columns.
Proof.
  intros Hf Hr H. rewrite (get_csv_stats_loaded _ _ _ _ _ _ Hf Hr) in H.
  destruct (score_summary_frame df) as (C & _ & D).
  assert (S : In "v2 Score" (columns df) ->
              snd (fst (score_summary df)) = Stats.RoundedMean (scores_of df) /\
              snd (score_summary df) = score_bands (to_numeric (column df "v2 Score"))).
  { intros I. apply mem_In in I. unfold score_summary. rewrite I.
    cbn [fst snd]. split; reflexivity. }
  destruct (score_summary df) as [[d avg] dist]. cbn [fst snd] in *.
  apply stats_loaded_inv in H as (T & A & B & L & Z & R & K & Dt & F).
  unfold column in *.
  rewrite <- (proj2 (D "Location" ltac:(discriminate))).
  rewrite <- (proj2 (D "Company Size" ltac:(discriminate))).
  rewrite <- (proj2 (D "Found Date" ltac:(discriminate))).
  rewrite <- (proj2 (D "CURRENT Role Mention" ltac:(discriminate))).
  rewrite <- (proj1 (D "CURRENT Role Mention" ltac:(discriminate))).
  rewrite <- C.
  split; [exact T|]. split; [intros I; rewrite C in I; rewrite A, B; now apply S|].
  split; [exact L|]. split; [exact Z|]. split; [exact R|].
  split; [exact K|]. split; [exact Dt | exact F].
Qed.


(** The found-date range spans the dates that parse: its ends are the
    formatted earliest and latest of them, and both ends are empty when no
    found date parses. *)
Theorem statistics_date_range_spans_the_dates :
  forall fs path f df s,
    fs path = Some f ->
    read_csv f = Ok df ->
    get_csv_stats to_datetime strftime fs path = Ok (Stats.Summary s) ->
    let stamps := numbers (to_datetime_coerce to_datetime (column df "Found Date")) in
    (stamps = [] -> Stats.found_date_range s = ("", "")) /\
    (stamps <> [] ->
     exists earliest latest,
       Stats.found_date_range s = (strftime earliest, strftime latest) /\
       In earliest stamps /\ In latest stamps /\
       forall t, In t stamps -> (earliest <= t <= latest)%Z).
Proof.
  intros fs path f df s Hf Hr H stamps.
  apply (get_csv_stats_inv _ _ _ _ _ Hf Hr) in H as (_ & _ & _ & _ & R & _).
  rewrite !date_bound_extremum in R. fold stamps in R. split.
  - intros E. now rewrite E in R.
  - intros N.
    destruct (extremum Z.min stamps) as [lo|] eqn:Elo;
      [|apply extremum_none in Elo; contradiction].
    destruct (extremum Z.max stamps) as [hi|] eqn:Ehi;
      [|apply extremum_none in Ehi; contradiction].
    apply extremum_min in Elo as [Ilo Hlo]. apply extremum_max in Ehi as [Ihi Hhi].
    exists lo, hi. repeat split; auto.
Qed.

End StatisticsValues.


Lemma statistics_date_range_spans_the_dates_witness :
  exists s,
    get_csv_stats day_dates day_format full_fs "profiles.csv"
    = Ok (Stats.Summary s) /\
    Stats.found_date_range s = ("d1", "d3") /\
    exists earliest latest,
      Stats.found_date_range s = (day_format earliest, day_format latest) /\
      (earliest <= latest)%Z.
Proof.
  eexists. split; [vm_compute; reflexivity|]. split; [reflexivity|].
  lazymatch goal with
  | |- exists _ _, Stats.found_date_range ?s = _ /\ _ =>
      assert (E : get_csv_stats day_dates day_format full_fs "profiles.csv"
                  = Ok (Stats.Summary s)) by (vm_compute; reflexivity)
  end.
  destruct (statistics_date_range_spans_the_dates day_dates day_format full_fs
              "profiles.csv" full_file _ _ eq_refl eq_refl E) as [_ R].
  destruct (R ltac:(discriminate)) as (lo & hi & Hr & _ & Ihi & Hall).
  exists lo, hi. split; [exact Hr|]. apply (Hall hi Ihi).
Defined.

Lemma cell_eqb_eq a b : cell_eqb a b = true <-> a = b.
Proof.
  destruct a as [| |s|x], b as [| |t|y]; simpl; split;
    try congruence; try discriminate.
  - intros H. apply String.eqb_eq in H. congruence.
  - intros [= ->]. apply String.eqb_refl.
  - intros H. apply Z.eqb_eq in H. congruence.
  - intros [= ->]. apply Z.eqb_refl.
Qed.

Lemma cell_eqb_neq a b : cell_eqb a b = false <-> a <> b.
Proof.
  split.
  - intros H E. apply cell_eqb_eq in E. congruence.
  - intros N. destruct (cell_eqb a b) eqn:E; [|reflexivity].
    apply cell_eqb_eq in E. contradiction.
Qed.

Lemma occurrences_app a l l' :
  occurrences a (l ++ l') = (occurrences a l + occurrences a l')%Z.
Proof. unfold occurrences. rewrite filter_app, length_app. lia. Qed.

Lemma occurrences_one a b :
  occurrences a [b] = if cell_eqb a b then 1%Z else 0%Z.
Proof. unfold occurrences. simpl. now destruct (cell_eqb a b). Qed.

Lemma occurrences_pos a l : (0 < occurrences a l)%Z <-> In a l.
Proof.
  unfold occurrences. induction l as [|b l IH]; simpl; [lia|].
  destruct (cell_eqb a b) eqn:E.
  - apply cell_eqb_eq in E. subst b. cbn [length]. split; [auto | lia].
  - apply cell_eqb_neq in E. rewrite IH. split; [auto|].
    intros [->|H]; [contradiction | exact H].
Qed.

Lemma occurrences_absent a l : ~ In a l -> occurrences a l = 0%Z.
Proof.
  intros N. assert (H : ~ (0 < occurrences a l)%Z) by now rewrite occurrences_pos.
  unfold occurrences in *. lia.
Qed.

Lemma bump_keys a acc :
  map fst (bump a acc)
  = if existsb (fun k => cell_eqb k a) (map fst acc)
    then map fst acc else map fst acc ++ [a].
Proof.
  induction acc as [|[k n] acc IH]; simpl; [reflexivity|].
  destruct (cell_eqb k a) eqn:E; simpl; [reflexivity|].
  rewrite IH. now destruct (existsb _ _).
Qed.

Lemma bump_has_key a acc : In a (map fst (bump a acc)).
Proof.
  rewrite bump_keys. destruct (existsb _ _) eqn:E.
  - apply existsb_exists in E as (k & Hk & E). apply cell_eqb_eq in E. now subst k.
  - apply in_or_app. right. now left.
Qed.

Lemma bump_keeps_keys a acc x : In x (map fst acc) -> In x (map fst (bump a acc)).
Proof.
  intros H. rewrite bump_keys. destruct (existsb _ _); [exact H|].
  apply in_or_app. now left.
Qed.

Lemma bump_NoDup a acc : NoDup (map fst acc) -> NoDup (map fst (bump a acc)).
Proof.
  intros N. rewrite bump_keys. destruct (existsb _ _) eqn:E; [exact N|].
  apply (Permutation_NoDup (Permutation_cons_append _ _)).
  constructor; [|exact N]. intros I.
  assert (T : existsb (fun k => cell_eqb k a) (map fst acc) = true).
  { apply existsb_exists. exists a. split; [exact I|]. now apply cell_eqb_eq. }
  congruence.
Qed.

Lemma bump_In a acc k n :
  NoDup (map fst acc) ->
  In (k, n) (bump a acc) ->
  (k <> a /\ In (k, n) acc) \/
  (k = a /\ ((n = 1%Z /\ ~ In a (map fst acc)) \/
             exists m, n = (m + 1)%Z /\ In (a, m) acc)).
Proof.
  induction acc as [|[k0 n0] acc IH]; simpl; intros N H.
  - destruct H as [[= <- <-]|[]]. right. split; [reflexivity|]. left. tauto.
  - apply NoDup_cons_iff in N as [N0 N].
    destruct (cell_eqb k0 a) eqn:E.
    + apply cell_eqb_eq in E. subst k0. destruct H as [[= <- <-]|H].
      * right. split; [reflexivity|]. right. exists n0. auto.
      * left. split; [|now right]. intros ->. apply N0.
        apply in_map_iff. now exists (a, n).
    + apply cell_eqb_neq in E. destruct H as [[= <- <-]|H].
      * left. split; [exact E | now left].
      * destruct (IH N H) as [[Hk Hi]|[-> [[-> Hn]|(m & -> & Hm)]]].
        -- left. split; [exact Hk | now right].
        -- right. split; [reflexivity|]. left. split; [reflexivity|].
           intros [->|I]; [now apply E | now apply Hn].
        -- right. split; [reflexivity|]. right. exists m. split; [reflexivity|].
           now right.
Qed.

Lemma tally_step done a acc :
  NoDup (map fst acc) ->
  (forall k n, In (k, n) acc ->
               isna k = false /\ In k done /\ n = occurrences k done) ->
  (forall x, In x done -> isna x = false -> In x (map fst acc)) ->
  NoDup (map fst (if isna a then acc else bump a acc)) /\
  (forall k n, In (k, n) (if isna a then acc else bump a acc) ->
               isna k = false /\ In k (done ++ [a]) /\
               n = occurrences k (done ++ [a])) /\
  (forall x, In x (done ++ [a]) -> isna x = false ->
             In x (map fst (if isna a then acc else bump a acc))).
Proof.
  intros N S C. destruct (isna a) eqn:A.
  - assert (Q : forall k, isna k = false -> cell_eqb k a = false)
      by (intros k Hk; destruct a, k; try discriminate; reflexivity).
    split; [exact N|]. split.
    + intros k n H. destruct (S k n H) as (Hk & Hi & Hn).
      split; [exact Hk|]. split; [apply in_or_app; now left|].
      rewrite occurrences_app, occurrences_one, (Q k Hk). lia.
    + intros x H Hx. apply in_app_or in H as [H|[<-|[]]]; [auto | congruence].
  - split; [now apply bump_NoDup|]. split.
    + intros k n H. rewrite occurrences_app, occurrences_one.
      destruct (bump_In _ _ _ _ N H) as [[Hk Hi]|[-> [[-> Hn]|(m & -> & Hm)]]].
      * destruct (S k n Hi) as (Kn & Ki & Ko).
        split; [exact Kn|]. split; [apply in_or_app; now left|].
        apply cell_eqb_neq in Hk. rewrite Hk. lia.
      * split; [exact A|]. split; [apply in_or_app; right; now left|].
        rewrite (proj2 (cell_eqb_eq a a) eq_refl).
        rewrite occurrences_absent; [reflexivity|]. intros I. apply Hn. auto.
      * destruct (S a m Hm) as (_ & _ & Ko).
        split; [exact A|]. split; [apply in_or_app; right; now left|].
        rewrite (proj2 (cell_eqb_eq a a) eq_refl). lia.
    + intros x H Hx. apply in_app_or in H as [H|[<-|[]]].
      * apply bump_keeps_keys. auto.
      * apply bump_has_key.
Qed.

Lemma tally_from col : forall done acc,
  NoDup (map fst acc) ->
  (forall k n, In (k, n) acc ->
               isna k = false /\ In k done /\ n = occurrences k done) ->
  (forall x, In x done -> isna x = false -> In x (map fst acc)) ->
  let out := fold_left (fun acc a => if isna a then acc else bump a acc) col acc in
  NoDup (map fst out) /\
  (forall k n, In (k, n) out ->
               isna k = false /\ In k (done ++ col) /\
               n = occurrences k (done ++ col)) /\
  (forall x, In x (done ++ col) -> isna x = false -> In x (map fst out)).
Proof.
  induction col as [|a col IH]; intros done acc N S C; cbn [fold_left].
  - rewrite app_nil_r. auto.
  - destruct (tally_step done a acc N S C) as (N' & S' & C').
    specialize (IH (done ++ [a]) _ N' S' C'). cbn zeta in IH.
    rewrite <- app_assoc in IH. exact IH.
Qed.

Lemma tally_NoDup col : NoDup (map fst (tally col)).
Proof.
  apply (tally_from col [] []); simpl; [constructor | tauto | tauto].
Qed.

Lemma tally_spec col k n :
  In (k, n) (tally col)
  <-> isna k = false /\ In k col /\ n = occurrences k col.
Proof.
  destruct (tally_from col [] []) as (N & S & C); simpl;
    [constructor | tauto | tauto |].
  simpl in *. fold (tally col) in *. split; [apply S|].
  intros (Hk & Hi & ->). specialize (C k Hi Hk).
  apply in_map_iff in C as ([k' n'] & E & I). simpl in E. subst k'.
  destruct (S k n' I) as (_ & _ & ->). exact I.
Qed.

Lemma insert_count_perm kn l : Permutation (insert_count kn l) (kn :: l).
Proof.
  induction l as [|h t IH]; simpl; [reflexivity|].
  destruct (snd h <=? snd kn)%Z; [reflexivity|].
  rewrite IH. apply perm_swap.
Qed.

Lemma insert_count_sorted kn l :
  StronglySorted (fun x y : cell * Z => (snd y <= snd x)%Z) l ->
  StronglySorted (fun x y : cell * Z => (snd y <= snd x)%Z) (insert_count kn l).
Proof.
  induction l as [|h t IH]; simpl; intros S.
  - repeat constructor.
  - destruct (Z.leb_spec (snd h) (snd kn)) as [L|L].
    + constructor; [exact S|]. constructor; [exact L|].
      apply StronglySorted_inv in S as [_ F].
      eapply Forall_impl; [|exact F]. simpl. intros; lia.
    + apply StronglySorted_inv in S as [S F]. constructor; [now apply IH|].
      apply Forall_forall. intros y Hy.
      apply (Permutation_in _ (insert_count_perm kn t)) in Hy as [<-|Hy]; [lia|].
      rewrite Forall_forall in F. now apply F.
Qed.

Lemma value_counts_perm col : Permutation (value_counts col) (tally col).
Proof.
  unfold value_counts. induction (tally col) as [|kn l IH]; simpl; [reflexivity|].
  rewrite insert_count_perm. now constructor.
Qed.

Lemma value_counts_sorted col :
  StronglySorted (fun x y : cell * Z => (snd y <= snd x)%Z) (value_counts col).
Proof.
  unfold value_counts. induction (tally col) as [|kn l IH]; simpl; [constructor|].
  now apply insert_count_sorted.
Qed.

Lemma value_counts_spec col k n :
  In (k, n) (value_counts col)
  <-> isna k = false /\ In k col /\ n = occurrences k col.
Proof.
  rewrite <- tally_spec. split; apply Permutation_in.
  - apply value_counts_perm.
  - symmetry. apply value_counts_perm.
Qed.

Lemma value_counts_NoDup col : NoDup (map fst (value_counts col)).
Proof.
  apply (Permutation_NoDup (Permutation_map fst (Permutation_sym (value_counts_perm col)))).
  apply tally_NoDup.
Qed.

Lemma sorted_prefix_dominates {A} (R : A -> A -> Prop) l1 l2 :
  StronglySorted R (l1 ++ l2) ->
  forall x y, In x l1 -> In y l2 -> R x y.
Proof.
  induction l1 as [|a l1 IH]; simpl; intros S x y Hx Hy; [contradiction|].
  apply StronglySorted_inv in S as [S F]. destruct Hx as [<-|Hx].
  - rewrite Forall_forall in F. apply F. apply in_or_app. now right.
  - now apply IH.
Qed.

Lemma sorted_prefix {A} (R : A -> A -> Prop) l1 l2 :
  StronglySorted R (l1 ++ l2) -> StronglySorted R l1.
Proof.
  induction l1 as [|a l1 IH]; simpl; intros S; [constructor|].
  apply StronglySorted_inv in S as [S F]. constructor; [now apply IH|].
  apply Forall_app in F. tauto.
Qed.

Lemma NoDup_prefix {A} (l1 l2 : list A) : NoDup (l1 ++ l2) -> NoDup l1.
Proof.
  induction l1 as [|a l1 IH]; simpl; intros N; [constructor|].
  apply NoDup_cons_iff in N as [Na N]. constructor; [|now apply IH].
  intros I. apply Na. apply in_or_app. now left.
Qed.

Lemma text_cells_key col k :
  text_cells col -> In k col -> isna k = false -> exists t, k = Str t.
Proof.
  unfold text_cells. rewrite Forall_forall. intros T I N.
  specialize (T k I). destruct k as [| |t|z]; [discriminate | discriminate | now exists t | contradiction].
Qed.

Lemma breakdown_In l t n :
  In (t, n) (breakdown l) <-> exists k, In (k, n) l /\ str_of k = t.
Proof.
  unfold breakdown. rewrite in_map_iff. split.
  - intros ([k m] & [= <- <-] & I). now exists k.
  - intros (k & I & <-). now exists (k, n).
Qed.

Lemma breakdown_text col l t n :
  text_cells col ->
  (forall k m, In (k, m) l -> isna k = false /\ In k col) ->
  (In (t, n) (breakdown l) <-> In (Str t, n) l).
Proof.
  intros T H. rewrite breakdown_In. split.
  - intros (k & I & <-). destruct (H k n I) as [Kn Ki].
    destruct (text_cells_key col k T Ki Kn) as [u ->]. exact I.
  - intros I. now exists (Str t).
Qed.

Lemma breakdown_keys_NoDup col l :
  text_cells col ->
  (forall k m, In (k, m) l -> isna k = false /\ In k col) ->
  NoDup (map fst l) ->
  NoDup (map fst (breakdown l)).
Proof.
  intros T H. unfold breakdown. rewrite map_map. cbn [fst].
  induction l as [|[k m] l IH]; simpl; intros N; [constructor|].
  apply NoDup_cons_iff in N as [Nk N]. constructor.
  - intros I. apply in_map_iff in I as ([k' m'] & E & I). simpl in E.
    destruct (H k m (or_introl eq_refl)) as [Kn Ki].
    destruct (H k' m' (or_intror I)) as [Kn' Ki'].
    destruct (text_cells_key col k T Ki Kn) as [u ->].
    destruct (text_cells_key col k' T Ki' Kn') as [u' ->].
    simpl in E. subst u'. apply Nk. apply in_map_iff. now exists (Str u, m').
  - apply IH; [|exact N]. intros k' m' I. apply (H k' m'). now right.
Qed.

Lemma breakdown_sorted l :
  StronglySorted (fun x y : cell * Z => (snd y <= snd x)%Z) l ->
  StronglySorted by_count (breakdown l).
Proof.
  unfold breakdown. induction 1 as [|a l S IH F]; simpl; constructor; [exact IH|].
  apply Forall_map. eapply Forall_impl; [|exact F]. unfold by_count. auto.
Qed.

Lemma get_layout {A} (g : A -> cell) (name : A -> string) lay c :
  get (map (fun l => (name l, g l)) lay) c
  = match find (fun l => String.eqb (name l) c) lay with
    | Some l => g l
    | None => NaN
    end.
Proof.
  induction lay as [|l lay IH]; simpl; [reflexivity|].
  destruct (String.eqb (name l) c); [reflexivity | exact IH].
Qed.

Lemma dtype_of_layout {A} (d : A -> dtype) (name : A -> string) lay c :
  dtype_of (map (fun l => (name l, d l)) lay) c
  = match find (fun l => String.eqb (name l) c) lay with
    | Some l => d l
    | None => object
    end.
Proof.
  induction lay as [|l lay IH]; simpl; [reflexivity|].
  destruct (String.eqb (name l) c); [reflexivity | exact IH].
Qed.

Lemma read_csv_text_column f df c :
  read_csv f = Ok df ->
  dtype_of (schema df) c = object ->
  text_cells (column df c).
Proof.
  destruct f as [|header body]; [discriminate|]. intros [= <-].
  unfold column, text_cells. cbn [schema rows].
  rewrite (dtype_of_layout (fun l : string * (nat * bool) =>
                              if snd (snd l) then numeric else object) fst).
  intros D. rewrite map_map. apply Forall_map. apply Forall_forall. intros row _.
  rewrite (get_layout (fun l : string * (nat * bool) =>
                         parse_field (snd (snd l)) (field row (fst (snd l)))) fst).
  destruct (find _ _) as [l|]; [|exact I].
  destruct (snd (snd l)); [discriminate|].
  unfold parse_field. now destruct (is_na_text _).
Qed.

Section StatisticsBreakdowns.

Variable to_datetime : cell -> parsed.
Variable strftime : Z -> string.

(** The company-size breakdown lists every company size that occurs in
    the table, once, with the number of rows that have it, the most
    frequent first; rows without a company size are not counted. *)
Theorem statistics_company_sizes_are_counted :
  forall fs path f df s,
    fs path = Some f ->
    read_csv f = Ok df ->
    get_csv_stats to_datetime strftime fs path = Ok (Stats.Summary s) ->
    dtype_of (schema df) "Company Size" = object ->
    (forall t n,
        In (t, n) (Stats.company_size_breakdown s)
        <-> In (Str t) (column df "Company Size") /\
            n = occurrences (Str t) (column df "Company Size")) /\
    NoDup (map fst (Stats.company_size_breakdown s)) /\
    StronglySorted by_count (Stats.company_size_breakdown s).
Proof.
  intros fs path f df s Hf Hr H D.
  apply (get_csv_stats_inv _ _ _ _ _ _ _ Hf Hr) in H as (_ & _ & _ & -> & _).
  pose proof (read_csv_text_column _ _ _ Hr D) as T.
  assert (K : forall k m, In (k, m) (value_counts (column df "Company Size")) ->
                          isna k = false /\ In k (column df "Company Size")).
  { intros k m I. apply value_counts_spec in I. tauto. }
  split; [|split].
  - intros t n. rewrite (breakdown_text _ _ _ _ T K), value_counts_spec.
    simpl. tauto.
  - apply (breakdown_keys_NoDup _ _ T K), value_counts_NoDup.
  - apply breakdown_sorted, value_counts_sorted.
Qed.

(** The location breakdown is a top ten: it has at most ten entries, each
    a location of the table with the number of rows that have it, the most
    frequent first and none twice; a location is left out only when ten
    others occur at least as often. *)
Theorem statistics_locations_are_the_top_ten :
  forall fs path f df s,
    fs path = Some f ->
    read_csv f = Ok df ->
    get_csv_stats to_datetime strftime fs path = Ok (Stats.Summary s) ->
    dtype_of (schema df) "Location" = object ->
    (length (Stats.location_breakdown s) <= 10)%nat /\
    (forall t n,
        In (t, n) (Stats.location_breakdown s) ->
        In (Str t) (column df "Location") /\
        n = occurrences (Str t) (column df "Location")) /\
    (forall t,
        In (Str t) (column df "Location") ->
        ~ In t (map fst (Stats.location_breakdown s)) ->
        length (Stats.location_breakdown s) = 10%nat /\
        forall u m, In (u, m) (Stats.location_breakdown s) ->
                    (occurrences (Str t) (column df "Location") <= m)%Z) /\
    NoDup (map fst (Stats.location_breakdown s)) /\
    StronglySorted by_count (Stats.location_breakdown s).
Proof.
  intros fs path f df s Hf Hr H D.
  apply (get_csv_stats_inv _ _ _ _ _ _ _ Hf Hr) in H as (_ & _ & -> & _).
  pose proof (read_csv_text_column _ _ _ Hr D) as T.
  set (col := column df "Location") in *.
  pose proof (firstn_skipn 10 (value_counts col)) as E.
  assert (K : forall k m, In (k, m) (firstn 10 (value_counts col)) ->
                          isna k = false /\ In k col).
  { intros k m I. assert (I' : In (k, m) (value_counts col)).
    { rewrite <- E. apply in_or_app. now left. }
    apply value_counts_spec in I'. tauto. }
  split; [|split; [|split; [|split]]].
  - unfold breakdown. rewrite length_map. apply firstn_le_length.
  - intros t n I. apply (breakdown_text _ _ _ _ T K) in I.
    assert (I' : In (Str t, n) (value_counts col)).
    { rewrite <- E. apply in_or_app. now left. }
    apply value_counts_spec in I'. tauto.
  - intros t I N.
    assert (V : In (Str t, occurrences (Str t) col) (value_counts col)).
    { apply value_counts_spec. auto. }
    rewrite <- E in V. apply in_app_or in V as [V|V].
    + exfalso. apply N. apply in_map_iff.
      exists (t, occurrences (Str t) col). split; [reflexivity|].
      now apply (breakdown_text _ _ _ _ T K).
    + split.
      * unfold breakdown. rewrite length_map. apply firstn_length_le.
        destruct (Nat.le_gt_cases 10 (length (value_counts col))) as [L|L];
          [exact L|].
        rewrite skipn_all2 in V by lia. contradiction.
      * intros u m J. apply (breakdown_text _ _ _ _ T K) in J.
        pose proof (value_counts_sorted col) as S. rewrite <- E in S.
        exact (sorted_prefix_dominates _ _ _ S _ _ J V).
  - apply (breakdown_keys_NoDup _ _ T K).
    pose proof (value_counts_NoDup col) as N. rewrite <- E, map_app in N.
    exact (NoDup_prefix _ _ N).
  - apply breakdown_sorted.
    pose proof (value_counts_sorted col) as S. rewrite <- E in S.
    exact (sorted_prefix _ _ _ S).
Qed.

End StatisticsBreakdowns.

Lemma statistics_company_sizes_are_counted_witness :
  exists s,
    get_csv_stats day_dates day_format full_fs "profiles.csv"
    = Ok (Stats.Summary s) /\
    Stats.company_size_breakdown s = [("51-200", 3%Z); ("11-50", 1%Z)] /\
    NoDup (map fst (Stats.company_size_breakdown s)).
Proof.
  eexists. split; [vm_compute; reflexivity|]. split; [reflexivity|].
  lazymatch goal with
  | |- NoDup (map fst (Stats.company_size_breakdown ?s)) =>
      assert (E : get_csv_stats day_dates day_format full_fs "profiles.csv"
                  = Ok (Stats.Summary s)) by (vm_compute; reflexivity)
  end.
  exact (proj1 (proj2 (statistics_company_sizes_are_counted day_dates day_format
                         full_fs "profiles.csv" full_file _ _ eq_refl eq_refl E
                         eq_refl))).
Defined.

Lemma statistics_locations_are_the_top_ten_witness :
  exists s,
    get_csv_stats day_dates day_format full_fs "profiles.csv"
    = Ok (Stats.Summary s) /\
    Stats.location_breakdown s = [("Berlin", 3%Z); ("USA (Seattle)", 1%Z)] /\
    (length (Stats.location_breakdown s) <= 10)%nat.
Proof.
  eexists. split; [vm_compute; reflexivity|]. split; [reflexivity|].
  lazymatch goal with
  | |- (length (Stats.location_breakdown ?s) <= 10)%nat =>
      assert (E : get_csv_stats day_dates day_format full_fs "profiles.csv"
                  = Ok (Stats.Summary s)) by (vm_compute; reflexivity)
  end.
  exact (proj1 (statistics_locations_are_the_top_ten day_dates day_format
                  full_fs "profiles.csv" full_file _ _ eq_refl eq_refl E
                  eq_refl)).
Defined.

Lemma filter_map_length {A B} (p : B -> bool) (g : A -> B) l :
  length (filter p (map g l)) = length (filter (fun x => p (g x)) l).
Proof.
  induction l as [|x l IH]; simpl; [reflexivity|].
  destruct (p (g x)); simpl; now rewrite IH.
Qed.

Lemma mask_sum_map {A} (g : A -> bool) l :
  mask_sum (map g l) = Z.of_nat (length (filter g l)).
Proof. unfold mask_sum. now rewrite filter_map_length. Qed.

Lemma coerce_scores_summary df :
  coerce_scores df = Ok (fst (fst (score_summary df))).
Proof.
  unfold coerce_scores, score_summary.
  destruct (Py.mem "v2 Score" (columns df)) eqn:M; [|reflexivity].
  apply mem_In in M. now rewrite (getitem_In df _ M).
Qed.

Section StatisticsAndFilter.

Variable to_datetime : cell -> parsed.
Variable strftime : Z -> string.

(** The statistics and the filter count alike: the current-role count is
    the number of rows the filter returns for current roles only, the
    band of twenty and above is the number it returns for a minimum score
    of twenty, and the total is the number it returns without criteria
    (each time without a limit). *)
Theorem statistics_agree_with_the_filter :
  forall fs path f df s,
    fs path = Some f ->
    read_csv f = Ok df ->
    get_csv_stats to_datetime strftime fs path = Ok (Stats.Summary s) ->
    (exists out,
        filter_profiles to_datetime strftime fs path
                        None None None None None None None = Ok out /\
        Stats.total_profiles s = Z.of_nat (length out)) /\
    (exists out,
        filter_profiles to_datetime strftime fs path
                        None None None None (Some true) None None = Ok out /\
        Stats.current_role_count s = Z.of_nat (length out)) /\
    (In "v2 Score" (columns df) ->
     exists out rest,
       filter_profiles to_datetime strftime fs path
                       (Some 20%Z) None None None None None None = Ok out /\
       Stats.score_distribution s = ("20+", Z.of_nat (length out)) :: rest).
Proof.
  intros fs path f df s Hf Hr H.
  apply (get_csv_stats_inv _ _ _ _ _ _ _ Hf Hr) in H
    as (T & S & _ & _ & _ & K & Dt & F).
  destruct (score_summary_frame df) as (C & L & D).
  destruct (D "CURRENT Role Mention" ltac:(discriminate)) as [Dd Dc].
  pose proof (coerce_scores_summary df) as E.
  set (d1 := fst (fst (score_summary df))) in *.
  split; [|split].
  - eexists. rewrite (filter_profiles_loaded _ _ _ _ _ _ _ _ _ _ _ _ _ Hf Hr).
    unfold filter_loaded. rewrite E.
    cbn [bind keep_scores keep_containing nonempty_list keep_current_role
         keep_found_after nonempty_string].
    split; [reflexivity|]. now rewrite answer_length, L.
  - eexists. rewrite (filter_profiles_loaded _ _ _ _ _ _ _ _ _ _ _ _ _ Hf Hr).
    unfold filter_loaded. rewrite E.
    cbn [bind keep_scores keep_containing nonempty_list keep_current_role].
    assert (I : In "CURRENT Role Mention" (columns d1)).
    { rewrite C. rewrite Forall_forall in F. apply F. simpl. tauto. }
    unfold str_accessor. rewrite (getitem_In _ _ I), Dd, Dt.
    cbn [bind keep_found_after nonempty_string]. split; [reflexivity|].
    rewrite answer_length, K. unfold str_startswith, column.
    rewrite <- Dc, select_map_rows, mask_sum_map, filter_map_length.
    reflexivity.
  - intros I. destruct (S I) as [_ B]. do 2 eexists.
    rewrite (filter_profiles_loaded _ _ _ _ _ _ _ _ _ _ _ _ _ Hf Hr).
    unfold filter_loaded. rewrite E.
    assert (I1 : In "v2 Score" (columns d1)) by now rewrite C.
    cbn [bind keep_scores]. rewrite (getitem_In _ _ I1).
    cbn [bind keep_scores keep_containing nonempty_list keep_current_role
         keep_found_after nonempty_string].
    split; [reflexivity|]. rewrite B. unfold score_bands. f_equal. f_equal.
    rewrite answer_length. unfold ge_scalar at 2. rewrite select_map_rows.
    assert (E1 : map (fun r => get r "v2 Score") (rows d1)
                 = to_numeric (column df "v2 Score")).
    { subst d1. unfold score_summary. apply mem_In in I. rewrite I. cbn [fst].
      apply column_after_to_numeric. }
    rewrite <- E1. unfold ge_scalar. now rewrite mask_sum_map, filter_map_length.
Qed.

End StatisticsAndFilter.

Lemma statistics_agree_with_the_filter_witness :
  exists s,
    get_csv_stats day_dates day_format full_fs "profiles.csv"
    = Ok (Stats.Summary s) /\
    Stats.current_role_count s = 2%Z /\
    exists out,
      filter_profiles day_dates day_format full_fs "profiles.csv"
                      None None None None (Some true) None None = Ok out /\
      Stats.current_role_count s = Z.of_nat (length out).
Proof.
  eexists. split; [vm_compute; reflexivity|]. split; [reflexivity|].
  lazymatch goal with
  | |- exists _, _ /\ Stats.current_role_count ?s = _ =>
      assert (E : get_csv_stats day_dates day_format full_fs "profiles.csv"
                  = Ok (Stats.Summary s)) by (vm_compute; reflexivity)
  end.
  exact (proj1 (proj2 (statistics_agree_with_the_filter day_dates day_format
                         full_fs "profiles.csv" full_file _ _ eq_refl eq_refl E))).
Defined.
